(** * The Stream Deck "light" action (src/actions/light.ts)

    A shallow embedding of the colour-picker button: the key handlers
    [onKeyDown] and [onKeyUp], the title selection [setTitle], the thumbnail
    buffer built by [createPngBase64] and the dispatcher [changeLampColor],
    together with the JavaScript primitives they rely on. *)

From Stdlib Require Import ZArith String Ascii List Lia DecimalString.
From stdpp Require Import base list strings.
Import ListNotations.
Open Scope string_scope.
Open Scope Z_scope.

(** ** JavaScript primitives used by the action

    Numbers are modelled as integers ([Num z], exact for the safe-integer
    range) plus [NaN], which is what arithmetic on [undefined] produces.
    An array read [a[i]] is the list lookup [a !! i]; [None] stands for
    [undefined]. *)
Module JS.

Inductive number := Num (z : Z) | NaN.

(** [ToNumber(undefined)] is [NaN]. *)
Definition ToNumber (v : option Z) : number :=
  match v with Some z => Num z | None => NaN end.

(** [ToInt32]: reduce modulo 2^32 into the signed 32-bit range; [NaN]
    becomes 0. *)
Definition ToInt32 (n : number) : Z :=
  match n with
  | NaN => 0
  | Num z => let m := z mod 2 ^ 32 in if 2 ^ 31 <=? m then m - 2 ^ 32 else m
  end.

(** The operator [v << k] on a possibly undefined operand. *)
Definition shl (v : option Z) (k : Z) : number :=
  Num (ToInt32 (Num (Z.shiftl (ToInt32 (ToNumber v)) (k mod 32)))).

(** The operator [+] on numbers. *)
Definition add (a b : number) : number :=
  match a, b with
  | Num x, Num y => Num (x + y)
  | _, _ => NaN
  end.

(** One digit of [Number.prototype.toString(16)]: lower case. *)
Definition hexDigit (d : Z) : ascii :=
  if d <? 10 then ascii_of_nat (48 + Z.to_nat d)
  else ascii_of_nat (87 + Z.to_nat d).

(** Digits of a non-negative integer in base 16, most significant first. *)
Fixpoint toHexDigits (fuel : nat) (n : Z) : string :=
  match fuel with
  | O => ""
  | S fuel' =>
      if n <? 16 then String (hexDigit n) ""
      else toHexDigits fuel' (n / 16) ++ String (hexDigit (n mod 16)) ""
  end.

Definition hexFuel (n : Z) : nat := S (Z.to_nat (Z.log2 n)).

(** [n.toString(16)]. *)
Definition toString16 (n : number) : string :=
  match n with
  | NaN => "NaN"
  | Num z =>
      if z <? 0 then "-" ++ toHexDigits (hexFuel (- z)) (- z)
      else toHexDigits (hexFuel z) z
  end.

(** [s.slice(start)] for a non-negative [start]. *)
Fixpoint slice (start : nat) (s : string) : string :=
  match start, s with
  | O, _ => s
  | S _, "" => ""
  | S k, String _ rest => slice k rest
  end.

Definition toUpperChar (c : ascii) : ascii :=
  let n := nat_of_ascii c in
  if (97 <=? n)%nat && (n <=? 122)%nat then ascii_of_nat (n - 32) else c.

(** [s.toUpperCase()] on ASCII text. *)
Fixpoint toUpperCase (s : string) : string :=
  match s with
  | "" => ""
  | String c rest => String (toUpperChar c) (toUpperCase rest)
  end.

(** Decimal [Number.prototype.toString()]. *)
Definition toString10 (z : Z) : string :=
  DecimalString.NilZero.string_of_int (Z.to_int z).

(** [Array.prototype.join(sep)] on an array of numbers. *)
Fixpoint join (sep : string) (a : list Z) : string :=
  match a with
  | [] => ""
  | [x] => toString10 x
  | x :: rest => toString10 x ++ sep ++ join sep rest
  end.

(** [Array.prototype.toString()] is [join(",")]. *)
Definition arrayToString (a : list Z) : string := join "," a.

(** [s.split(/,( )?/)].  The separator is matched at each position of the
    subject: a comma, then greedily one optional space, which is the
    regular expression's only capture group.  As in
    [RegExp.prototype[Symbol.split]], every match closes the current piece
    and then appends the value of each capture group to the result: the
    one-space string when the space was there, [undefined] ([None])
    otherwise.  [piece] holds the characters read since the last match, in
    reverse. *)
Fixpoint splitCommaSpace (piece : list ascii) (s : string)
  : list (option string) :=
  match s with
  | "" => [Some (string_of_list_ascii (rev piece))]
  | String c rest =>
      if Ascii.eqb c ","
      then match rest with
           | String c' rest' =>
               if Ascii.eqb c' " "
               then Some (string_of_list_ascii (rev piece))
                      :: Some " " :: splitCommaSpace [] rest'
               else Some (string_of_list_ascii (rev piece))
                      :: None :: splitCommaSpace [] rest
           | "" => Some (string_of_list_ascii (rev piece))
                     :: None :: splitCommaSpace [] rest
           end
      else splitCommaSpace (c :: piece) rest
  end.

Definition split (s : string) : list (option string) :=
  splitCommaSpace [] s.

End JS.

(** ** Data model *)

(** [LightSettings]: the record persisted by the host for one button.  The two
    cached colour fields are absent ([None], JavaScript [undefined]) until a
    colour has been picked. *)
Record LightSettings := {
  colorHex : option string;
  colorRgb : option (list Z);
  isDown : bool;
  longPress : bool;
  delay : Z;
  showValue : string;
  lights : string;
  url : string;
  token : string;
}.

(** The object spreads of the handlers: [{ ...settings, field: value }]. *)
Definition with_isDown (v : bool) (s : LightSettings) : LightSettings :=
  {| colorHex := colorHex s; colorRgb := colorRgb s; isDown := v;
     longPress := longPress s; delay := delay s; showValue := showValue s;
     lights := lights s; url := url s; token := token s |}.

Definition with_longPress (v : bool) (s : LightSettings) : LightSettings :=
  {| colorHex := colorHex s; colorRgb := colorRgb s; isDown := isDown s;
     longPress := v; delay := delay s; showValue := showValue s;
     lights := lights s; url := url s; token := token s |}.

(** [{ ...settings, isDown: false, colorHex: hex, longPress: false,
       colorRgb: color }]. *)
Definition with_color (hex : string) (color : list Z) (s : LightSettings)
  : LightSettings :=
  {| colorHex := Some hex; colorRgb := Some color; isDown := false;
     longPress := false; delay := delay s; showValue := showValue s;
     lights := lights s; url := url s; token := token s |}.

Definition with_lights (v : string) (s : LightSettings) : LightSettings :=
  {| colorHex := colorHex s; colorRgb := colorRgb s; isDown := isDown s;
     longPress := longPress s; delay := delay s; showValue := showValue s;
     lights := v; url := url s; token := token s |}.

(** The body object of one request, before [JSON.stringify]; a field holding
    [undefined] is [None] (and is left out of the serialised text). *)
Record Body := {
  entity_id : option string;
  rgb_color : option (list Z);
}.

(** The arguments of one [fetch] call. *)
Record Request := {
  req_url : string;
  method : string;
  authorization : string;
  content_type : string;
  body : Body;
}.

(** The [PNG] object handed to [PNG.sync.write]: [data] is the RGBA byte
    buffer, four bytes a pixel, rows first. *)
Record PNG := {
  width : nat;
  height : nat;
  colorType : Z;
  data : list Z;
}.

(** ** Thumbnail buffer *)

(** A store into a byte buffer: the value is reduced to eight bits
    ([undefined] stores 0) and an index outside the buffer stores nothing. *)
Definition ToUint8 (v : option Z) : Z :=
  match v with Some z => z mod 256 | None => 0 end.

Definition bufferSet (buf : list Z) (idx : Z) (v : option Z) : list Z :=
  if idx <? 0 then buf else <[Z.to_nat idx := ToUint8 v]> buf.

(** [(width * y + x) << 2]. *)
Definition pixelIndex (w y x : nat) : Z :=
  JS.ToInt32 (JS.shl (Some (Z.of_nat w * Z.of_nat y + Z.of_nat x)) 2).

(** The body of the inner loop. *)
Definition setPixel (r g b : option Z) (buf : list Z) (idx : Z) : list Z :=
  let buf := bufferSet buf idx r in
  let buf := bufferSet buf (idx + 1) g in
  let buf := bufferSet buf (idx + 2) b in
  bufferSet buf (idx + 3) (Some 255).

(** [for (let x = 0; x < width; x++)] inside [for (let y = 0; ...)]. *)
Definition fillRow (w : nat) (r g b : option Z) (buf : list Z) (y : nat)
  : list Z :=
  foldl (fun buf x => setPixel r g b buf (pixelIndex w y x)) buf (seq 0 w).

Definition fillPixels (w h : nat) (r g b : option Z) (buf : list Z) : list Z :=
  foldl (fillRow w r g b) buf (seq 0 h).

(** [new PNG({ width, height, colorType: 2 })] followed by the two loops.  The
    constructor of pngjs allocates a zeroed buffer of [4 * width * height]
    bytes. *)
Definition newPNG (w h : nat) (ct : Z) : PNG :=
  {| width := w; height := h; colorType := ct;
     data := replicate (4 * w * h) 0 |}.

Definition createPng (color : list Z) : PNG :=
  let r := color !! 0%nat in
  let g := color !! 1%nat in
  let b := color !! 2%nat in
  let png := newPNG 128 128 2 in
  {| width := width png; height := height png; colorType := colorType png;
     data := fillPixels (width png) (height png) r g b (data png) |}.

(** ** The hex text of a colour

    The expression of [onKeyUp]:
    ["#" + ((1 << 24) + (color[0] << 16) + (color[1] << 8) + color[2])
             .toString(16).slice(1).toUpperCase()]. *)
Definition hex (color : list Z) : string :=
  "#" ++ JS.toUpperCase (JS.slice 1 (JS.toString16
    (JS.add
       (JS.add
          (JS.add (JS.shl (Some 1) 24) (JS.shl (color !! 0%nat) 16))
          (JS.shl (color !! 1%nat) 8))
       (JS.ToNumber (color !! 2%nat))))).

(** ** Effects of the handlers *)

(** What the world outside the action answers during one handler run. *)
Inductive PickerOutcome :=
| ExecRejects                (* [execFileAsync("pick-color.exe")] rejects *)
| InvalidJson                (* [JSON.parse(stdout.trim())] throws *)
| Json (color : list Z).     (* it returns the array [color] *)

Inductive FetchOutcome :=
| FetchOk                    (* a response whose body is JSON *)
| FetchRejects               (* the request itself fails *)
| BodyNotJson.               (* [response.json()] rejects *)

Record Env := {
  picker : PickerOutcome;
  (** what other handlers do to the persisted record while [onKeyDown]
      waits for its timer *)
  whileWaiting : LightSettings -> LightSettings;
  response : Request -> FetchOutcome;
}.

(** The calls a handler makes to the host, the operating system and the
    network, in program order. *)
Inductive Effect :=
| SetSettings (s : LightSettings)
| SetTimeout (ms : Z)
| ExecFile (file : string)
| Fetch (r : Request)
| ConsoleError (r : Request)
| SetTitle (title : string)
| SetImage (png : PNG).

Inductive Error := ExecFileError | SyntaxError.

(** How an [async] function ends. *)
Inductive Outcome (A : Type) :=
| Resolved (a : A)
| Rejected (e : Error).
Arguments Resolved {A} a.
Arguments Rejected {A} e.

Record World := {
  persisted : LightSettings;
  trace : list Effect;
}.

(** An asynchronous computation: it runs against the persisted record, logs
    its effects and resolves or rejects. *)
Definition Async (A : Type) : Type := World -> Outcome A * World.

#[global] Instance Async_ret : MRet Async := fun A a w => (Resolved a, w).

#[global] Instance Async_bind : MBind Async := fun A B f m w =>
  match m w with
  | (Resolved a, w') => f a w'
  | (Rejected e, w') => (Rejected e, w')
  end.

Definition reject {A : Type} (e : Error) : Async A := fun w => (Rejected e, w).

Definition emit (e : Effect) : Async unit := fun w =>
  (Resolved tt, {| persisted := persisted w; trace := trace w ++ [e] |}).

(** [ev.action.getSettings()]. *)
Definition getSettings : Async LightSettings := fun w =>
  (Resolved (persisted w), w).

(** [ev.action.setSettings(s)]: the host replaces the persisted record; its
    messages are handled in the order they are sent. *)
Definition setSettings (s : LightSettings) : Async unit := fun w =>
  (Resolved tt, {| persisted := s; trace := trace w ++ [SetSettings s] |}).

(** [await new Promise((resolve) => setTimeout(resolve, ms))]: other handlers
    run meanwhile. *)
Definition sleep (env : Env) (ms : Z) : Async unit := fun w =>
  (Resolved tt, {| persisted := whileWaiting env (persisted w);
                   trace := trace w ++ [SetTimeout ms] |}).

(** [JSON.parse((await execFileAsync(file)).stdout.trim())]. *)
Definition pickColor (env : Env) (file : string) : Async (list Z) :=
  emit (ExecFile file);;
  match picker env with
  | ExecRejects => reject ExecFileError
  | InvalidJson => reject SyntaxError
  | Json color => mret color
  end.

(** [fetch(...).then((response) => response.json()).then(...).catch(...)]:
    a failure of either step is logged by the [catch] and goes no further. *)
Definition fetch (env : Env) (r : Request) : Async unit :=
  emit (Fetch r);;
  match response env r with
  | FetchOk => mret tt
  | FetchRejects | BodyNotJson => emit (ConsoleError r)
  end.

(** [for (const x of l) { f(x) }]. *)
Fixpoint forOf {A : Type} (l : list A) (f : A -> Async unit) : Async unit :=
  match l with
  | [] => mret tt
  | x :: rest => f x;; forOf rest f
  end.

(** ** The action *)

Definition requestFor (color : option (list Z)) (settings : LightSettings)
    (light : option string) : Request :=
  {| req_url := url settings ++ "/api/services/light/turn_on";
     method := "POST";
     authorization := "Bearer " ++ token settings;
     content_type := "application/json";
     body := {| entity_id := light; rgb_color := color |} |}.

Definition changeLampColor (env : Env) (color : option (list Z))
    (settings : LightSettings) : Async unit :=
  forOf (JS.split (lights settings))
        (fun light => fetch env (requestFor color settings light)).

(** Truthiness of the two cached fields: a string is truthy when it is not
    empty, an array always, [undefined] never. *)
Definition truthyString (v : option string) : bool :=
  match v with Some (String _ _) => true | _ => false end.

Definition truthyArray (v : option (list Z)) : bool :=
  match v with Some _ => true | None => false end.

Definition fallbackTitle : string :=
  "Color" ++ String (ascii_of_nat 10) "Picker".

Definition setTitle (settings : LightSettings) (change : string -> Async unit)
  : Async unit :=
  if String.eqb (showValue settings) "hex" && truthyString (colorHex settings)
  then change (default "" (colorHex settings))
  else if String.eqb (showValue settings) "rgb"
          && truthyArray (colorRgb settings)
  then change (JS.arrayToString (default [] (colorRgb settings)))
  else change fallbackTitle.

(** [ev.action.setTitle] and [ev.action.setImage]. *)
Definition action_setTitle (title : string) : Async unit :=
  emit (SetTitle title).

Definition action_setImage (png : PNG) : Async unit := emit (SetImage png).

Definition onKeyDown (env : Env) : Async unit :=
  settings ← getSettings;
  setSettings (with_isDown true settings);;
  sleep env (delay settings);;
  settings ← getSettings;
  if negb (isDown settings) then mret tt else
  setSettings (with_longPress true settings);;
  changeLampColor env (colorRgb settings) settings.

(** [setImage] receives the data URL of the encoded image; the trace keeps
    the image itself. *)
Definition onKeyUp (env : Env) : Async unit :=
  settings ← getSettings;
  setSettings (with_isDown false settings);;
  if negb (longPress settings) then
    color ← pickColor env "pick-color.exe";
    changeLampColor env (Some color) settings;;
    setSettings (with_color (hex color) color settings);;
    setTitle settings action_setTitle;;
    action_setImage (createPng color)
  else
    setSettings (with_longPress false settings).

Definition onDidReceiveSettings (settings : LightSettings) : Async unit :=
  setTitle settings action_setTitle.

(** [onWillAppear] starts [getSettings().then(...)] and does not return that
    promise: the handler itself always ends normally.  With no colour stored
    yet, destructuring [settings.colorRgb] throws inside the callback, after
    the title is set and before any image is. *)
Definition onWillAppear : Async unit :=
  settings ← getSettings;
  setTitle settings action_setTitle;;
  match colorRgb settings with
  | Some color => action_setImage (createPng color)
  | None => mret tt
  end.

(** ** The hex format of the specification

    ["#"] followed by the two-digit upper-case hexadecimal text of each
    channel.  This definition follows the specification's words; [hex] above
    is the code. *)
Definition upperHexDigit (d : Z) : ascii :=
  match d with
  | 0 => "0" | 1 => "1" | 2 => "2" | 3 => "3" | 4 => "4" | 5 => "5"
  | 6 => "6" | 7 => "7" | 8 => "8" | 9 => "9" | 10 => "A" | 11 => "B"
  | 12 => "C" | 13 => "D" | 14 => "E" | 15 => "F" | _ => "?"
  end%char.

Definition hex2 (n : Z) : string :=
  String (upperHexDigit (n / 16)) (String (upperHexDigit (n mod 16)) "").

Definition hexFormat (r g b : Z) : string :=
  "#" ++ hex2 r ++ hex2 g ++ hex2 b.

Definition channel (c : Z) : Prop := 0 <= c <= 255.

(** Projections of a trace. *)
Definition fetches (t : list Effect) : list Request :=
  omap (fun e => match e with Fetch r => Some r | _ => None end) t.

Definition writes (t : list Effect) : list LightSettings :=
  omap (fun e => match e with SetSettings s => Some s | _ => None end) t.

Definition execs (t : list Effect) : list string :=
  omap (fun e => match e with ExecFile f => Some f | _ => None end) t.

(** ** Reading a run *)

(** The requests of one call of [changeLampColor]: one for each element of
    the split [lights] text. *)
Definition requests (color : option (list Z)) (settings : LightSettings)
  : list Request :=
  map (requestFor color settings) (JS.split (lights settings)).

(** What one [fetch] chain logs. *)
Definition fetchEvents (env : Env) (r : Request) : list Effect :=
  Fetch r :: match response env r with
             | FetchOk => []
             | FetchRejects | BodyNotJson => [ConsoleError r]
             end.

Definition dispatchEvents (env : Env) (color : option (list Z))
    (settings : LightSettings) : list Effect :=
  concat (map (fetchEvents env) (requests color settings)).

(** The record a handler finds when the host starts it. *)
Definition start (s : LightSettings) : World :=
  {| persisted := s; trace := [] |}.

(** The text [setTitle] passes to its callback. *)
Definition titleText (settings : LightSettings) : string :=
  if String.eqb (showValue settings) "hex" && truthyString (colorHex settings)
  then default "" (colorHex settings)
  else if String.eqb (showValue settings) "rgb"
          && truthyArray (colorRgb settings)
  then JS.arrayToString (default [] (colorRgb settings))
  else fallbackTitle.

(** What the short-press branch of [onKeyUp] logs once a colour is read. *)
Definition shortPressEvents (env : Env) (color : list Z) (s : LightSettings)
  : list Effect :=
  ([SetSettings (with_isDown false s); ExecFile "pick-color.exe"]
   ++ dispatchEvents env (Some color) s
   ++ [SetSettings (with_color (hex color) color s);
       SetTitle (titleText s);
       SetImage (createPng color)])%list.

(** A colour the data model accepts: three channels, each in 0..255. *)
Definition validColor (color : list Z) : bool :=
  match color with
  | [r; g; b] =>
      (0 <=? r) && (r <=? 255) && (0 <=? g) && (g <=? 255)
      && (0 <=? b) && (b <=? 255)
  | _ => false
  end.

(** ** Sample states *)

(** A configured button at rest, showing the colour picked last. *)
Definition idle : LightSettings :=
  {| colorHex := Some "#FF0080"; colorRgb := Some [255; 0; 128];
     isDown := false; longPress := false; delay := 200;
     showValue := "hex"; lights := "kitchen, bedroom";
     url := "http://homeassistant.local:8123"; token := "secret" |}.

(** The same button once the timer of [onKeyDown] has marked a long press. *)
Definition held : LightSettings :=
  with_longPress true (with_isDown true idle).

(** A world where nothing else touches the record and every request
    succeeds. *)
Definition quiet (p : PickerOutcome) : Env :=
  {| picker := p; whileWaiting := fun s => s; response := fun _ => FetchOk |}.

(** A world where the key is released while [onKeyDown] waits. *)
Definition released (p : PickerOutcome) : Env :=
  {| picker := p; whileWaiting := with_isDown false;
     response := fun _ => FetchOk |}.

(** A world where the whole of [onKeyUp] runs while [onKeyDown] waits. *)
Definition keyUpMeanwhile (p : PickerOutcome) : Env :=
  {| picker := p;
     whileWaiting := fun s => persisted (onKeyUp (quiet p) (start s)).2;
     response := fun _ => FetchOk |}.

(** ** Colour fields across a settings write *)

(** The write leaves both colour fields as they were. *)
Definition colorKept (old new : LightSettings) : Prop :=
  colorHex new = colorHex old /\ colorRgb new = colorRgb old.

(** The write stores a colour of three channels together with its hex
    format. *)
Definition colorFormatted (new : LightSettings) : Prop :=
  exists r g b,
    colorRgb new = Some [r; g; b] /\ colorHex new = Some (hexFormat r g b).

Definition colorWriteOk (old new : LightSettings) : Prop :=
  colorKept old new \/ colorFormatted new.



(** ** Reading an image *)

(** The byte the loops store for channel [c] of a pixel (0 red, 1 green,
    2 blue, 3 alpha). *)
Definition chanValue (r g b : option Z) (c : nat) : Z :=
  match c with
  | 0%nat => ToUint8 r
  | 1%nat => ToUint8 g
  | 2%nat => ToUint8 b
  | _ => 255
  end.

(** The pixel at column [x] of row [y]: red, green, blue, alpha. *)
Definition pixelAt (png : PNG) (x y : nat) : option (Z * Z * Z * Z) :=
  let i := (4 * (width png * y + x))%nat in
  match data png !! i, data png !! (i + 1)%nat,
        data png !! (i + 2)%nat, data png !! (i + 3)%nat with
  | Some r, Some g, Some b, Some a => Some (r, g, b, a)
  | _, _, _, _ => None
  end.

(** ** Encoding the thumbnail

    [createPngBase64] ends with two library calls: [PNG.sync.write(png)] of
    pngjs and [buffer.toString("base64")].  Both are parameters here. *)
Definition dataUrl (toBase64 : list Z -> string) (bytes : list Z) : string :=
  "data:image/png;base64," ++ toBase64 bytes.

Definition createPngBase64 (PNG_sync_write : PNG -> list Z)
    (toBase64 : list Z -> string) (color : list Z) : string :=
  dataUrl toBase64 (PNG_sync_write (createPng color)).

(** The images the encoder is used on: colour type 2, a full buffer of
    bytes, every pixel opaque. *)
Definition opaqueImage (png : PNG) : Prop :=
  colorType png = 2
  /\ length (data png) = (4 * (width png * height png))%nat
  /\ Forall (fun v => 0 <= v < 256) (data png)
  /\ forall q, (q < width png * height png)%nat ->
               data png !! (4 * q + 3)%nat = Some 255.

(** What is asked of a decoder of data URLs: it gives back every opaque
    image that was encoded. *)
Definition decodes (PNG_sync_write : PNG -> list Z)
    (toBase64 : list Z -> string) (decode : string -> option PNG) : Prop :=
  forall png, opaqueImage png ->
    decode (dataUrl toBase64 (PNG_sync_write png)) = Some png.

(** A codec that meets this contract, the plainest there is: the header and
    the bytes written one after the other, each number in unary. *)
Fixpoint unary (n : nat) : string :=
  match n with
  | O => "1"
  | S k => String "0" (unary k)
  end.

Fixpoint unaryList (l : list nat) : string :=
  match l with
  | [] => ""
  | n :: rest => unary n ++ unaryList rest
  end.

Fixpoint unaryDecode (acc : nat) (s : string) : list nat :=
  match s with
  | "" => []
  | String c rest =>
      if Ascii.eqb c "1" then acc :: unaryDecode 0 rest
      else unaryDecode (S acc) rest
  end.

Definition plainWrite (png : PNG) : list Z :=
  Z.of_nat (width png) :: Z.of_nat (height png) :: colorType png :: data png.

Definition plainText (bytes : list Z) : string :=
  unaryList (map Z.to_nat bytes).

Definition plainDecode (s : string) : option PNG :=
  match unaryDecode 0 (JS.slice 22 s) with
  | w :: h :: ct :: bytes =>
      Some {| width := w; height := h; colorType := Z.of_nat ct;
              data := map Z.of_nat bytes |}
  | _ => None
  end.

(** ** Reading the split of the lights text *)

(** The number of commas of a text. *)
Fixpoint commas (s : string) : nat :=
  match s with
  | "" => 0
  | String c rest => if Ascii.eqb c "," then S (commas rest) else commas rest
  end.

(** Put the result of the split back together: a piece, then for every
    match the comma and the captured space, then the next piece. *)
Fixpoint unsplit (l : list (option string)) : string :=
  match l with
  | Some piece :: sep :: rest =>
      piece ++ "," ++ default "" sep ++ unsplit rest
  | [Some piece] => piece
  | _ => ""
  end.

(** An element of the split without a comma in it. *)
Definition commaFree (e : option string) : Prop :=
  forall p, e = Some p -> commas p = 0%nat.

(** More projections of a trace. *)
Definition consoleErrors (t : list Effect) : list Request :=
  omap (fun e => match e with ConsoleError r => Some r | _ => None end) t.

Definition titles (t : list Effect) : list string :=
  omap (fun e => match e with SetTitle x => Some x | _ => None end) t.

Definition images (t : list Effect) : list PNG :=
  omap (fun e => match e with SetImage x => Some x | _ => None end) t.

Definition failed (o : FetchOutcome) : bool :=
  match o with FetchOk => false | FetchRejects | BodyNotJson => true end.

(** The same world with other answers from the network. *)
Definition with_response (resp : Request -> FetchOutcome) (env : Env) : Env :=
  {| picker := picker env; whileWaiting := whileWaiting env;
     response := resp |}.

(** ** The variant configured by the process environment

    The second half of light.ts: the same action with a record of four
    fields, a fixed delay of 200 ms, a 20 by 20 thumbnail and one light,
    whose address, token and entity id are read from [process.env].  The
    model covers a process in which the three variables are set. *)
Module EnvVariant.

Record LightSettings := {
  colorHex : option string;
  colorRgb : option (list Z);
  isDown : bool;
  longPress : bool;
}.

(** [{ ...settings, isDown: v }] and [{ ...settings, longPress: v }]. *)
Definition with_isDown (v : bool) (s : LightSettings) : LightSettings :=
  {| colorHex := colorHex s; colorRgb := colorRgb s; isDown := v;
     longPress := longPress s |}.

Definition with_longPress (v : bool) (s : LightSettings) : LightSettings :=
  {| colorHex := colorHex s; colorRgb := colorRgb s; isDown := isDown s;
     longPress := v |}.

(** [process.env.URL], [process.env.TOKEN] and [process.env.ENTITY_ID]. *)
Record ProcessEnv := {
  URL : string;
  TOKEN : string;
  ENTITY_ID : string;
}.

Record Env := {
  vars : ProcessEnv;
  picker : PickerOutcome;
  whileWaiting : LightSettings -> LightSettings;
  response : Request -> FetchOutcome;
}.

Inductive Effect :=
| SetSettings (s : LightSettings)
| SetTimeout (ms : Z)
| ExecFile (file : string)
| Fetch (r : Request)
| ConsoleError (r : Request)
| SetTitle (title : string)
| SetImage (png : PNG).

Record World := {
  persisted : LightSettings;
  trace : list Effect;
}.

Definition Async (A : Type) : Type := World -> Outcome A * World.

#[global] Instance Async_ret : MRet Async := fun A a w => (Resolved a, w).

#[global] Instance Async_bind : MBind Async := fun A B f m w =>
  match m w with
  | (Resolved a, w') => f a w'
  | (Rejected e, w') => (Rejected e, w')
  end.

Definition reject {A : Type} (e : Error) : Async A := fun w => (Rejected e, w).

Definition emit (e : Effect) : Async unit := fun w =>
  (Resolved tt, {| persisted := persisted w; trace := trace w ++ [e] |}).

Definition getSettings : Async LightSettings := fun w =>
  (Resolved (persisted w), w).

Definition setSettings (s : LightSettings) : Async unit := fun w =>
  (Resolved tt, {| persisted := s; trace := trace w ++ [SetSettings s] |}).

Definition sleep (env : Env) (ms : Z) : Async unit := fun w =>
  (Resolved tt, {| persisted := whileWaiting env (persisted w);
                   trace := trace w ++ [SetTimeout ms] |}).

Definition pickColor (env : Env) (file : string) : Async (list Z) :=
  emit (ExecFile file);;
  match picker env with
  | ExecRejects => reject ExecFileError
  | InvalidJson => reject SyntaxError
  | Json color => mret color
  end.

Definition fetch (env : Env) (r : Request) : Async unit :=
  emit (Fetch r);;
  match response env r with
  | FetchOk => mret tt
  | FetchRejects | BodyNotJson => emit (ConsoleError r)
  end.

(** The one request of this variant: posted to [URL] itself. *)
Definition requestFor (env : Env) (color : option (list Z)) : Request :=
  {| req_url := URL (vars env);
     method := "POST";
     authorization := "Bearer " ++ TOKEN (vars env);
     content_type := "application/json";
     body := {| entity_id := Some (ENTITY_ID (vars env));
                rgb_color := color |} |}.

Definition changeLampColor (env : Env) (color : option (list Z))
  : Async unit :=
  fetch env (requestFor env color).

(** The 20 by 20 thumbnail. *)
Definition createPng (color : list Z) : PNG :=
  let r := color !! 0%nat in
  let g := color !! 1%nat in
  let b := color !! 2%nat in
  let png := newPNG 20 20 2 in
  {| width := width png; height := height png; colorType := colorType png;
     data := fillPixels (width png) (height png) r g b (data png) |}.

Definition action_setTitle (title : string) : Async unit :=
  emit (SetTitle title).

Definition action_setImage (png : PNG) : Async unit := emit (SetImage png).

(** [settings.colorHex || "Color\nPicker"]. *)
Definition titleOr (v : option string) : string :=
  match v with
  | Some (String c rest) => String c rest
  | _ => fallbackTitle
  end.

Definition onWillAppear : Async unit :=
  settings ← getSettings;
  action_setTitle (titleOr (colorHex settings));;
  match colorRgb settings with
  | Some color => action_setImage (createPng color)
  | None => mret tt
  end.

Definition onKeyDown (env : Env) : Async unit :=
  settings ← getSettings;
  setSettings (with_isDown true settings);;
  sleep env 200;;
  settings ← getSettings;
  if negb (isDown settings) then mret tt else
  setSettings (with_longPress true settings);;
  changeLampColor env (colorRgb settings).

Definition onKeyUp (env : Env) : Async unit :=
  settings ← getSettings;
  setSettings (with_isDown false settings);;
  if negb (longPress settings) then
    color ← pickColor env "pick-color.exe";
    changeLampColor env (Some color);;
    setSettings {| isDown := false; colorHex := Some (hex color);
                   longPress := false; colorRgb := Some color |};;
    action_setTitle (hex color);;
    action_setImage (createPng color)
  else
    setSettings (with_longPress false settings).

Definition start (s : LightSettings) : World :=
  {| persisted := s; trace := [] |}.

Definition fetches (t : list Effect) : list Request :=
  omap (fun e => match e with Fetch r => Some r | _ => None end) t.

Definition writes (t : list Effect) : list LightSettings :=
  omap (fun e => match e with SetSettings s => Some s | _ => None end) t.

Definition execs (t : list Effect) : list string :=
  omap (fun e => match e with ExecFile f => Some f | _ => None end) t.

Definition consoleErrors (t : list Effect) : list Request :=
  omap (fun e => match e with ConsoleError r => Some r | _ => None end) t.

Definition titles (t : list Effect) : list string :=
  omap (fun e => match e with SetTitle x => Some x | _ => None end) t.

Definition images (t : list Effect) : list PNG :=
  omap (fun e => match e with SetImage x => Some x | _ => None end) t.

(** A button at rest and a world where nothing else touches the record. *)
Definition idle : LightSettings :=
  {| colorHex := Some "#FF0080"; colorRgb := Some [255; 0; 128];
     isDown := false; longPress := false |}.

Definition quiet (p : PickerOutcome) : Env :=
  {| vars := {| URL := "http://homeassistant.local:8123/api/services/light/turn_on";
                TOKEN := "secret"; ENTITY_ID := "light.desk" |};
     picker := p; whileWaiting := fun s => s;
     response := fun _ => FetchOk |}.

End EnvVariant.

(** * Properties *)

(** ** Hex formatting *)

Lemma ToInt32_small (z : Z) :
  0 <= z < 2 ^ 31 -> JS.ToInt32 (JS.Num z) = z.
Proof.
  intros Hz. unfold JS.ToInt32. cbv zeta.
  rewrite Z.mod_small by lia.
  destruct (Z.leb_spec (2 ^ 31) z); lia.
Qed.

Lemma shl_small (z k : Z) :
  0 <= k < 32 -> 0 <= z -> z * 2 ^ k < 2 ^ 31 ->
  JS.shl (Some z) k = JS.Num (z * 2 ^ k).
Proof.
  intros Hk Hz Hb. unfold JS.shl, JS.ToNumber.
  assert (z < 2 ^ 31) by nia.
  rewrite Z.mod_small by lia.
  rewrite (ToInt32_small z) by lia.
  rewrite Z.shiftl_mul_pow2 by lia.
  rewrite ToInt32_small by lia. reflexivity.
Qed.

Lemma toHexDigits_last (fuel : nat) (n : Z) :
  n < 16 -> JS.toHexDigits (S fuel) n = String (JS.hexDigit n) "".
Proof.
  intros Hn. simpl. destruct (Z.ltb_spec n 16); [reflexivity | lia].
Qed.

Lemma toHexDigits_more (fuel : nat) (n : Z) :
  16 <= n ->
  JS.toHexDigits (S fuel) n
  = JS.toHexDigits fuel (n / 16) ++ String (JS.hexDigit (n mod 16)) "".
Proof.
  intros Hn. simpl. destruct (Z.ltb_spec n 16); [lia | reflexivity].
Qed.

Lemma toUpperChar_hexDigit (d : Z) :
  0 <= d < 16 -> JS.toUpperChar (JS.hexDigit d) = upperHexDigit d.
Proof.
  intros Hd.
  assert (Hcases : d = 0 \/ d = 1 \/ d = 2 \/ d = 3 \/ d = 4 \/ d = 5 \/ d = 6
                   \/ d = 7 \/ d = 8 \/ d = 9 \/ d = 10 \/ d = 11 \/ d = 12
                   \/ d = 13 \/ d = 14 \/ d = 15) by lia.
  repeat (destruct Hcases as [-> | Hcases]; [reflexivity |]).
  subst d. reflexivity.
Qed.

(** The number whose hexadecimal text [hex] takes. *)
Lemma packed_number (r g b : Z) :
  channel r -> channel g -> channel b ->
  JS.add
    (JS.add
       (JS.add (JS.shl (Some 1) 24) (JS.shl (Some r) 16))
       (JS.shl (Some g) 8))
    (JS.ToNumber (Some b))
  = JS.Num (16777216 + 65536 * r + 256 * g + b).
Proof.
  unfold channel. intros Hr Hg Hb.
  rewrite !shl_small by lia. simpl JS.ToNumber. unfold JS.add.
  f_equal. lia.
Qed.

(** Linear arithmetic with division and remainder by constants. *)
Ltac div_lia := Z.to_euclidean_division_equations; lia.

Lemma toString16_packed (n : Z) :
  0 <= n < 16777216 ->
  JS.toString16 (JS.Num (16777216 + n))
  = String "1"
      (String (JS.hexDigit (n / 1048576))
      (String (JS.hexDigit (n / 65536 mod 16))
      (String (JS.hexDigit (n / 4096 mod 16))
      (String (JS.hexDigit (n / 256 mod 16))
      (String (JS.hexDigit (n / 16 mod 16))
      (String (JS.hexDigit (n mod 16)) "")))))).
Proof.
  intros Hn. unfold JS.toString16.
  destruct (Z.ltb_spec (16777216 + n) 0); [lia |].
  assert (Hlog : Z.log2 (16777216 + n) = 24)
    by (apply Z.log2_unique; lia).
  unfold JS.hexFuel. rewrite Hlog.
  change (S (Z.to_nat 24)) with 25%nat.
  remember (16777216 + n) as N eqn:HN.
  rewrite (toHexDigits_more _ N) by div_lia.
  rewrite (toHexDigits_more _ (N / 16)) by div_lia.
  rewrite (toHexDigits_more _ (N / 16 / 16)) by div_lia.
  rewrite (toHexDigits_more _ (N / 16 / 16 / 16)) by div_lia.
  rewrite (toHexDigits_more _ (N / 16 / 16 / 16 / 16)) by div_lia.
  rewrite (toHexDigits_more _ (N / 16 / 16 / 16 / 16 / 16)) by div_lia.
  rewrite toHexDigits_last by div_lia.
  replace (N / 16 / 16 / 16 / 16 / 16 / 16) with 1 by div_lia.
  replace (N / 16 / 16 / 16 / 16 / 16 mod 16) with (n / 1048576) by div_lia.
  replace (N / 16 / 16 / 16 / 16 mod 16) with (n / 65536 mod 16) by div_lia.
  replace (N / 16 / 16 / 16 mod 16) with (n / 4096 mod 16) by div_lia.
  replace (N / 16 / 16 mod 16) with (n / 256 mod 16) by div_lia.
  replace (N / 16 mod 16) with (n / 16 mod 16) by div_lia.
  replace (N mod 16) with (n mod 16) by div_lia.
  reflexivity.
Qed.

Lemma hex_of_channels (r g b : Z) :
  channel r -> channel g -> channel b ->
  hex [r; g; b] = hexFormat r g b.
Proof.
  intros Hr Hg Hb. unfold hex. cbn [lookup list_lookup].
  rewrite packed_number by assumption.
  unfold channel in *.
  replace (16777216 + 65536 * r + 256 * g + b)
    with (16777216 + (65536 * r + 256 * g + b)) by lia.
  rewrite toString16_packed by lia.
  cbn [JS.slice JS.toUpperCase].
  rewrite !toUpperChar_hexDigit by div_lia.
  set (n := 65536 * r + 256 * g + b).
  replace (n / 1048576) with (r / 16) by (subst n; div_lia).
  replace (n / 65536 mod 16) with (r mod 16) by (subst n; div_lia).
  replace (n / 4096 mod 16) with (g / 16) by (subst n; div_lia).
  replace (n / 256 mod 16) with (g mod 16) by (subst n; div_lia).
  replace (n / 16 mod 16) with (b / 16) by (subst n; div_lia).
  replace (n mod 16) with (b mod 16) by (subst n; div_lia).
  reflexivity.
Qed.

(** C4. For every colour whose three channels are integers between 0 and
    255, the hex text computed on the short-press path is ["#"] followed by
    the two-digit upper-case hexadecimal text of the red, green and blue
    channel, in that order. *)
Theorem hex_is_hexFormat (r g b : Z) :
  channel r -> channel g -> channel b ->
  hex [r; g; b] = hexFormat r g b.
Proof. exact (hex_of_channels r g b). Qed.

Lemma hex_is_hexFormat_witness :
  channel 255 /\ channel 0 /\ channel 128
  /\ hex [255; 0; 128] = "#FF0080".
Proof.
  assert (H255 : channel 255) by (unfold channel; lia).
  assert (H0 : channel 0) by (unfold channel; lia).
  assert (H128 : channel 128) by (unfold channel; lia).
  split; [exact H255 |]. split; [exact H0 |]. split; [exact H128 |].
  exact (hex_is_hexFormat 255 0 128 H255 H0 H128).
Defined.

(** ** Running the monad *)

Lemma bind_run {A B : Type} (m : Async A) (f : A -> Async B) (w : World) :
  (m ≫= f) w = match m w with
               | (Resolved a, w') => f a w'
               | (Rejected e, w') => (Rejected e, w')
               end.
Proof. reflexivity. Qed.

Lemma fetch_run (env : Env) (r : Request) (w : World) :
  fetch env r w
  = (Resolved tt, {| persisted := persisted w;
                     trace := trace w ++ fetchEvents env r |}).
Proof.
  unfold fetch, fetchEvents. rewrite bind_run.
  unfold emit, mret, Async_ret. cbn.
  destruct (response env r); cbn; rewrite <- ?app_assoc; reflexivity.
Qed.

Lemma forOf_fetch_run {A : Type} (env : Env) (f : A -> Request) (l : list A)
    (w : World) :
  forOf l (fun x => fetch env (f x)) w
  = (Resolved tt, {| persisted := persisted w;
                     trace := trace w ++ concat (map (fetchEvents env)
                                                     (map f l)) |}).
Proof.
  revert w. induction l as [| x l IH]; intros w.
  - cbn. rewrite app_nil_r. destruct w; reflexivity.
  - cbn [forOf]. rewrite bind_run, fetch_run, IH. cbn.
    rewrite <- app_assoc. reflexivity.
Qed.

Lemma changeLampColor_run (env : Env) (color : option (list Z))
    (settings : LightSettings) (w : World) :
  changeLampColor env color settings w
  = (Resolved tt, {| persisted := persisted w;
                     trace := trace w ++ dispatchEvents env color settings |}).
Proof. unfold changeLampColor. apply forOf_fetch_run. Qed.

Lemma fetches_app (t1 t2 : list Effect) :
  fetches (t1 ++ t2) = (fetches t1 ++ fetches t2)%list.
Proof. unfold fetches. apply omap_app. Qed.

Lemma writes_app (t1 t2 : list Effect) :
  writes (t1 ++ t2) = (writes t1 ++ writes t2)%list.
Proof. unfold writes. apply omap_app. Qed.

Lemma execs_app (t1 t2 : list Effect) :
  execs (t1 ++ t2) = (execs t1 ++ execs t2)%list.
Proof. unfold execs. apply omap_app. Qed.

Lemma fetches_fetchEvents (env : Env) (rs : list Request) :
  fetches (concat (map (fetchEvents env) rs)) = rs.
Proof.
  induction rs as [| r rs IH]; [reflexivity |].
  cbn [map concat]. rewrite fetches_app, IH.
  unfold fetchEvents. destruct (response env r); reflexivity.
Qed.

Lemma writes_fetchEvents (env : Env) (rs : list Request) :
  writes (concat (map (fetchEvents env) rs)) = [].
Proof.
  induction rs as [| r rs IH]; [reflexivity |].
  cbn [map concat]. rewrite writes_app, IH.
  unfold fetchEvents. destruct (response env r); reflexivity.
Qed.

Lemma execs_fetchEvents (env : Env) (rs : list Request) :
  execs (concat (map (fetchEvents env) rs)) = [].
Proof.
  induction rs as [| r rs IH]; [reflexivity |].
  cbn [map concat]. rewrite execs_app, IH.
  unfold fetchEvents. destruct (response env r); reflexivity.
Qed.

Lemma fetches_dispatchEvents env color settings :
  fetches (dispatchEvents env color settings) = requests color settings.
Proof. apply fetches_fetchEvents. Qed.

(** Unfold the primitive operations of a handler body. *)
Ltac run_async :=
  unfold mbind, Async_bind, mret, Async_ret, getSettings, setSettings, sleep,
    emit, reject;
  cbn [persisted trace fst snd].

(** The two handlers, run from any world. *)
Lemma onKeyDown_run (env : Env) (w : World) :
  let s := persisted w in
  let s1 := whileWaiting env (with_isDown true s) in
  onKeyDown env w
  = (Resolved tt,
     if isDown s1
     then {| persisted := with_longPress true s1;
             trace := trace w
                      ++ [SetSettings (with_isDown true s);
                          SetTimeout (delay s);
                          SetSettings (with_longPress true s1)]
                      ++ dispatchEvents env (colorRgb s1) s1 |}
     else {| persisted := s1;
             trace := trace w ++ [SetSettings (with_isDown true s);
                                  SetTimeout (delay s)] |}).
Proof.
  cbv zeta. unfold onKeyDown. run_async.
  destruct (isDown (whileWaiting env (with_isDown true (persisted w)))) eqn:E;
    cbn [negb]; run_async.
  - rewrite changeLampColor_run. cbn. rewrite <- !app_assoc. reflexivity.
  - rewrite <- !app_assoc. reflexivity.
Qed.

Lemma setTitle_titleText (settings : LightSettings)
    (change : string -> Async unit) :
  setTitle settings change = change (titleText settings).
Proof.
  unfold setTitle, titleText.
  destruct (String.eqb (showValue settings) "hex"
            && truthyString (colorHex settings)); [reflexivity |].
  destruct (String.eqb (showValue settings) "rgb"
            && truthyArray (colorRgb settings)); reflexivity.
Qed.

Lemma onKeyUp_run (env : Env) (w : World) :
  let s := persisted w in
  onKeyUp env w
  = if longPress s
    then (Resolved tt,
          {| persisted := with_longPress false s;
             trace := trace w ++ [SetSettings (with_isDown false s);
                                  SetSettings (with_longPress false s)] |})
    else match picker env with
         | ExecRejects =>
             (Rejected ExecFileError,
              {| persisted := with_isDown false s;
                 trace := trace w ++ [SetSettings (with_isDown false s);
                                      ExecFile "pick-color.exe"] |})
         | InvalidJson =>
             (Rejected SyntaxError,
              {| persisted := with_isDown false s;
                 trace := trace w ++ [SetSettings (with_isDown false s);
                                      ExecFile "pick-color.exe"] |})
         | Json color =>
             (Resolved tt,
              {| persisted := with_color (hex color) color s;
                 trace := trace w ++ shortPressEvents env color s |})
         end.
Proof.
  cbv zeta. unfold onKeyUp. run_async.
  destruct (longPress (persisted w)); cbn [negb]; run_async.
  - rewrite <- ?app_assoc. reflexivity.
  - unfold pickColor. run_async.
    destruct (picker env) as [| | color]; run_async.
    + rewrite <- ?app_assoc. reflexivity.
    + rewrite <- ?app_assoc. reflexivity.
    + rewrite changeLampColor_run. cbn [persisted trace].
      rewrite setTitle_titleText.
      unfold action_setTitle, action_setImage, shortPressEvents. run_async.
      rewrite <- ?app_assoc. reflexivity.
Qed.

(** ** The dispatcher *)

(** C1. With [lights = "kitchen, bedroom"] the dispatcher does not send two
    requests: the split keeps the text of the separator's capture group, so
    [changeLampColor] sends three, for "kitchen", for the one-space text and
    for "bedroom", each with the same colour. *)
Theorem changeLampColor_kitchen_bedroom (env : Env) (color : option (list Z))
    (s : LightSettings) :
  let s' := with_lights "kitchen, bedroom" s in
  fetches (trace (changeLampColor env color s' (start s')).2)
  = [requestFor color s' (Some "kitchen");
     requestFor color s' (Some " ");
     requestFor color s' (Some "bedroom")].
Proof.
  cbv zeta. rewrite changeLampColor_run. cbn [snd trace start app].
  rewrite fetches_dispatchEvents. reflexivity.
Qed.

(** Without the space the capture group is [undefined], and the middle
    request has no [entity_id] at all. *)
Lemma changeLampColor_no_space (env : Env) (color : option (list Z))
    (s : LightSettings) :
  let s' := with_lights "kitchen,bedroom" s in
  map (fun r => entity_id (body r))
      (fetches (trace (changeLampColor env color s' (start s')).2))
  = [Some "kitchen"; None; Some "bedroom"].
Proof.
  cbv zeta. rewrite changeLampColor_run. cbn [snd trace start app].
  rewrite fetches_dispatchEvents. reflexivity.
Qed.

(** Every request of one call carries the colour it was called with. *)
Lemma requests_same_color (color : option (list Z)) (s : LightSettings) :
  Forall (fun r => rgb_color (body r) = color) (requests color s).
Proof.
  unfold requests.
  induction (JS.split (lights s)) as [| light l IH]; cbn [map].
  - constructor.
  - constructor; [reflexivity | exact IH].
Qed.

(** ** Key up after a long press *)

Lemma onKeyUp_after_longPress (env : Env) (s : LightSettings) :
  let r := onKeyUp env (start (with_longPress true s)) in
  r.1 = Resolved tt
  /\ persisted r.2 = with_longPress false s
  /\ isDown (persisted r.2) = isDown s
  /\ fetches (trace r.2) = []
  /\ execs (trace r.2) = [].
Proof.
  cbv zeta. rewrite onKeyUp_run. cbn. repeat split.
Qed.

(** C2. Released after a long press, [onKeyUp] first writes [isDown = false]
    and then writes the record it read at entry with only [longPress]
    cleared: the record left behind has [longPress = false], the colour
    untouched, no picker run and no request sent, but [isDown] is back to
    [true]. *)
Theorem onKeyUp_held_leaves_isDown :
  let r := onKeyUp (quiet ExecRejects) (start held) in
  r.1 = Resolved tt
  /\ writes (trace r.2)
     = [with_isDown false held; with_longPress false held]
  /\ longPress (persisted r.2) = false
  /\ isDown (persisted r.2) = true
  /\ colorRgb (persisted r.2) = colorRgb held
  /\ colorHex (persisted r.2) = colorHex held
  /\ fetches (trace r.2) = []
  /\ execs (trace r.2) = [].
Proof.
  cbv zeta. rewrite onKeyUp_run. cbn. repeat split.
Qed.

(** ** The timer of [onKeyDown] *)

(** C6. When the record read again after the delay has [isDown = false], the
    handler stops there: the only settings write is the one made before the
    delay, and no request is sent. *)
Theorem onKeyDown_timer_released (env : Env) (s : LightSettings) :
  let s1 := whileWaiting env (with_isDown true s) in
  isDown s1 = false ->
  let r := onKeyDown env (start s) in
  r.1 = Resolved tt
  /\ trace r.2 = [SetSettings (with_isDown true s); SetTimeout (delay s)]
  /\ writes (trace r.2) = [with_isDown true s]
  /\ fetches (trace r.2) = []
  /\ persisted r.2 = s1.
Proof.
  cbv zeta. intros Hup. rewrite onKeyDown_run. cbv zeta.
  cbn [start persisted trace]. rewrite Hup. cbn. repeat split.
Qed.

Lemma onKeyDown_timer_released_witness :
  isDown (whileWaiting (released ExecRejects) (with_isDown true idle)) = false
  /\ fetches (trace (onKeyDown (released ExecRejects) (start idle)).2) = [].
Proof.
  split; [reflexivity |].
  exact (proj1 (proj2 (proj2 (proj2
    (onKeyDown_timer_released (released ExecRejects) idle eq_refl))))).
Defined.

(** A short press: when the key goes up while [onKeyDown] waits, whatever
    the colour picker does, the record read after the delay has
    [isDown = false]. *)
Lemma keyUpMeanwhile_released (p : PickerOutcome) (s : LightSettings) :
  longPress s = false ->
  isDown (whileWaiting (keyUpMeanwhile p) (with_isDown true s)) = false.
Proof.
  intros Hshort. cbn [keyUpMeanwhile whileWaiting].
  rewrite onKeyUp_run. cbv zeta. cbn [start persisted longPress with_isDown].
  rewrite Hshort. cbn [quiet picker]. destruct p; reflexivity.
Qed.

(** C7. When the record read again after the delay still has
    [isDown = true], the handler writes that record with [longPress = true]
    and calls the dispatcher once, with the colour stored in that record;
    the colour picker is not run. *)
Theorem onKeyDown_timer_held (env : Env) (s : LightSettings) :
  let s1 := whileWaiting env (with_isDown true s) in
  isDown s1 = true ->
  let r := onKeyDown env (start s) in
  r.1 = Resolved tt
  /\ trace r.2 = ([SetSettings (with_isDown true s); SetTimeout (delay s);
                   SetSettings (with_longPress true s1)]
                  ++ dispatchEvents env (colorRgb s1) s1)%list
  /\ persisted r.2 = with_longPress true s1
  /\ longPress (persisted r.2) = true
  /\ fetches (trace r.2) = requests (colorRgb s1) s1
  /\ Forall (fun q => rgb_color (body q) = colorRgb s1) (fetches (trace r.2))
  /\ execs (trace r.2) = [].
Proof.
  cbv zeta. intros Hdown. rewrite onKeyDown_run. cbv zeta.
  cbn [start persisted trace]. rewrite Hdown. cbn [fst snd persisted trace app].
  assert (Hf : fetches
                 (SetSettings (with_isDown true s)
                  :: SetTimeout (delay s)
                  :: SetSettings
                       (with_longPress true
                          (whileWaiting env (with_isDown true s)))
                  :: dispatchEvents env
                       (colorRgb (whileWaiting env (with_isDown true s)))
                       (whileWaiting env (with_isDown true s)))
               = requests (colorRgb (whileWaiting env (with_isDown true s)))
                          (whileWaiting env (with_isDown true s))).
  { change (fetches (?a :: ?b :: ?c :: ?t)) with (fetches t).
    apply fetches_dispatchEvents. }
  repeat split.
  - exact Hf.
  - rewrite Hf. apply requests_same_color.
  - change (execs (?a :: ?b :: ?c :: ?t)) with (execs t).
    apply execs_fetchEvents.
Qed.

Lemma onKeyDown_timer_held_witness :
  isDown (whileWaiting (quiet ExecRejects) (with_isDown true idle)) = true
  /\ fetches (trace (onKeyDown (quiet ExecRejects) (start idle)).2)
     = requests (Some [255; 0; 128]) (with_isDown true idle).
Proof.
  split; [reflexivity |].
  exact (proj1 (proj2 (proj2 (proj2 (proj2
    (onKeyDown_timer_held (quiet ExecRejects) idle eq_refl)))))).
Defined.

(** ** Errors *)

Lemma failed_fetch_logged (env : Env) (rs : list Request) (r : Request) :
  In r rs -> response env r <> FetchOk ->
  In (ConsoleError r) (concat (map (fetchEvents env) rs)).
Proof.
  intros Hin Hfail. induction rs as [| q rs IH]; [destruct Hin |].
  cbn [map concat]. apply in_app_iff.
  destruct Hin as [-> | Hin]; [left | right; auto].
  unfold fetchEvents. destruct (response env r); [congruence | |];
    right; left; reflexivity.
Qed.

Lemma fetches_shortPressEvents (env : Env) (color : list Z)
    (s : LightSettings) :
  fetches (shortPressEvents env color s) = requests (Some color) s.
Proof.
  unfold shortPressEvents. rewrite !fetches_app, fetches_dispatchEvents.
  cbn. apply app_nil_r.
Qed.

(** C3, as the code has it. A failed request is caught by its own [catch],
    logged, and changes the outcome of neither handler; [onKeyDown] always
    resolves; [onKeyUp] has no handler around the colour picker, so on the
    short-press path it rejects when the process fails or its output is not
    JSON, and resolves in every other case. *)
Theorem handler_outcomes (env : Env) (s : LightSettings) :
  let d := onKeyDown env (start s) in
  let u := onKeyUp env (start s) in
  d.1 = Resolved tt
  /\ u.1 = (if longPress s then Resolved tt
            else match picker env with
                 | ExecRejects => Rejected ExecFileError
                 | InvalidJson => Rejected SyntaxError
                 | Json _ => Resolved tt
                 end)
  /\ (forall r, In r (fetches (trace d.2)) -> response env r <> FetchOk ->
                In (ConsoleError r) (trace d.2))
  /\ (forall r, In r (fetches (trace u.2)) -> response env r <> FetchOk ->
                In (ConsoleError r) (trace u.2)).
Proof.
  cbv zeta. rewrite onKeyDown_run, onKeyUp_run. cbv zeta.
  cbn [start persisted trace app].
  split; [reflexivity |]. split.
  - destruct (longPress s); [reflexivity |].
    destruct (picker env); reflexivity.
  - split.
    + destruct (isDown (whileWaiting env (with_isDown true s)));
        cbn [snd trace]; intros r Hin Hfail.
      * change (fetches (?a :: ?b :: ?c :: ?t)) with (fetches t) in Hin.
        rewrite fetches_dispatchEvents in Hin.
        do 3 right. apply failed_fetch_logged; assumption.
      * destruct Hin.
    + destruct (longPress s); [intros r Hin; destruct Hin |].
      destruct (picker env) as [| | color]; cbn [snd trace];
        try (intros r Hin; destruct Hin).
      intros r Hin Hfail.
      rewrite fetches_shortPressEvents in Hin.
      unfold shortPressEvents. cbn [app]. do 2 right.
      apply in_app_iff. left.
      apply failed_fetch_logged; assumption.
Qed.

(** C3, as stated, fails: when the colour picker cannot be run, [onKeyUp]
    rejects with that error. *)
Lemma onKeyUp_rejects_picker_failure :
  (onKeyUp (quiet ExecRejects) (start idle)).1 = Rejected ExecFileError.
Proof. rewrite onKeyUp_run. reflexivity. Qed.

(** ** The short press *)

Lemma onKeyUp_short_run (env : Env) (s : LightSettings) :
  longPress s = false ->
  let u := onKeyUp env (start s) in
  match picker env with
  | ExecRejects =>
      u.1 = Rejected ExecFileError /\ fetches (trace u.2) = []
      /\ persisted u.2 = with_isDown false s
      /\ colorKept s (persisted u.2)
  | InvalidJson =>
      u.1 = Rejected SyntaxError /\ fetches (trace u.2) = []
      /\ persisted u.2 = with_isDown false s
      /\ colorKept s (persisted u.2)
  | Json color =>
      u.1 = Resolved tt
      /\ fetches (trace u.2) = requests (Some color) s
      /\ persisted u.2 = with_color (hex color) color s
  end.
Proof.
  cbv zeta. intros Hshort. rewrite onKeyUp_run. cbv zeta.
  cbn [start persisted trace app]. rewrite Hshort.
  destruct (picker env) as [| | color]; cbn [fst snd persisted trace].
  - repeat split.
  - repeat split.
  - split; [reflexivity |]. split; [| reflexivity].
    apply fetches_shortPressEvents.
Qed.

(** C8, as the code has it. On the short-press path a picker that fails, or
    prints something that is not JSON, makes [onKeyUp] reject before any
    request is sent, with both colour fields as they were; an array that
    parses is dispatched and stored as it is, whatever its length and
    values. *)
Theorem onKeyUp_short_press (env : Env) (s : LightSettings) :
  longPress s = false ->
  let u := onKeyUp env (start s) in
  match picker env with
  | ExecRejects =>
      u.1 = Rejected ExecFileError /\ fetches (trace u.2) = []
      /\ persisted u.2 = with_isDown false s
      /\ colorKept s (persisted u.2)
  | InvalidJson =>
      u.1 = Rejected SyntaxError /\ fetches (trace u.2) = []
      /\ persisted u.2 = with_isDown false s
      /\ colorKept s (persisted u.2)
  | Json color =>
      u.1 = Resolved tt
      /\ fetches (trace u.2) = requests (Some color) s
      /\ persisted u.2 = with_color (hex color) color s
  end.
Proof. exact (onKeyUp_short_run env s). Qed.

Lemma onKeyUp_short_press_witness :
  longPress idle = false
  /\ (onKeyUp (quiet InvalidJson) (start idle)).1 = Rejected SyntaxError
  /\ fetches (trace (onKeyUp (quiet InvalidJson) (start idle)).2) = [].
Proof.
  split; [reflexivity |].
  pose proof (onKeyUp_short_press (quiet InvalidJson) idle eq_refl) as H.
  exact (conj (proj1 H) (proj1 (proj2 H))).
Defined.

(** C8, as stated, fails: the array [300, 0, 0] is not a colour of the data
    model, yet [onKeyUp] resolves, sends it to every light and stores it. *)
Lemma onKeyUp_dispatches_out_of_range :
  let u := onKeyUp (quiet (Json [300; 0; 0])) (start idle) in
  validColor [300; 0; 0] = false
  /\ u.1 = Resolved tt
  /\ map (fun r => (entity_id (body r), rgb_color (body r)))
         (fetches (trace u.2))
     = [(Some "kitchen", Some [300; 0; 0]);
        (Some " ", Some [300; 0; 0]);
        (Some "bedroom", Some [300; 0; 0])]
  /\ colorRgb (persisted u.2) = Some [300; 0; 0]
  /\ colorHex (persisted u.2) = Some "#2C0000".
Proof.
  cbv zeta.
  pose proof (onKeyUp_short_run (quiet (Json [300; 0; 0])) idle eq_refl)
    as [Hout [Hfetch Hstore]].
  cbv zeta in Hout, Hfetch, Hstore.
  rewrite Hout, Hfetch, Hstore.
  repeat split.
Qed.

(** A two-element array is dispatched and stored as well; its hex text is
    what the arithmetic on [undefined] yields. *)
Lemma onKeyUp_dispatches_short_array :
  let u := onKeyUp (quiet (Json [1; 2])) (start idle) in
  u.1 = Resolved tt
  /\ colorRgb (persisted u.2) = Some [1; 2]
  /\ colorHex (persisted u.2) = Some "#AN".
Proof.
  cbv zeta.
  pose proof (onKeyUp_short_run (quiet (Json [1; 2])) idle eq_refl)
    as [Hout [_ Hstore]].
  cbv zeta in Hout, Hstore. rewrite Hout, Hstore. repeat split.
Qed.

(** ** The colour fields under settings writes *)







Lemma writes_shortPressEvents (env : Env) (color : list Z)
    (s : LightSettings) :
  writes (shortPressEvents env color s)
  = [with_isDown false s; with_color (hex color) color s].
Proof.
  unfold shortPressEvents, dispatchEvents.
  rewrite !writes_app, writes_fetchEvents. reflexivity.
Qed.




(** The same with three channels of which one is out of range: [300, 0, 0]
    is stored with "#2C0000", which is not its hex format. *)
Lemma out_of_range_write_breaks_hex :
  hex [300; 0; 0] = "#2C0000"
  /\ ~ colorWriteOk (with_isDown false idle)
         (with_color (hex [300; 0; 0]) [300; 0; 0] idle).
Proof.
  split; [reflexivity |].
  intros [[_ Hrgb] | (r & g & b & Hrgb & Hhex)]; cbn in Hrgb;
    [discriminate |].
  injection Hrgb as <- <- <-. cbn in Hhex. discriminate.
Qed.

(** A short press that picks (255, 0, 128) stores "#FF0080" with it. *)
Lemma short_press_stores_hex :
  let u := onKeyUp (quiet (Json [255; 0; 128])) (start idle) in
  colorRgb (persisted u.2) = Some [255; 0; 128]
  /\ colorHex (persisted u.2) = Some "#FF0080".
Proof. cbv zeta. rewrite onKeyUp_run. split; reflexivity. Qed.

(** ** The title *)


Lemma setTitle_examples :
  titleText idle = "#FF0080"
  /\ titleText {| colorHex := Some "#FF0080"; colorRgb := Some [255; 0; 128];
                  isDown := false; longPress := false; delay := 200;
                  showValue := "rgb"; lights := ""; url := ""; token := "" |}
     = "255,0,128"
  /\ titleText {| colorHex := None; colorRgb := None;
                  isDown := false; longPress := false; delay := 200;
                  showValue := "hex"; lights := ""; url := ""; token := "" |}
     = fallbackTitle
  /\ titleText {| colorHex := Some "#FF0080"; colorRgb := Some [255; 0; 128];
                  isDown := false; longPress := false; delay := 200;
                  showValue := "none"; lights := ""; url := ""; token := "" |}
     = fallbackTitle.
Proof. repeat split. Qed.

(** ** The thumbnail buffer *)

Section Fill.
Variables r g b : option Z.

Lemma bufferSet_length (buf : list Z) (i : Z) (v : option Z) :
  length (bufferSet buf i v) = length buf.
Proof.
  unfold bufferSet. destruct (i <? 0); [reflexivity | apply length_insert].
Qed.

Lemma bufferSet_lookup (buf : list Z) (i : nat) (j : nat) (v : option Z) :
  bufferSet buf (Z.of_nat i) v !! j
  = if decide (i = j /\ (j < length buf)%nat) then Some (ToUint8 v)
    else buf !! j.
Proof.
  unfold bufferSet. destruct (Z.ltb_spec (Z.of_nat i) 0); [lia |].
  rewrite Nat2Z.id. case_decide as H1.
  - destruct H1 as [-> Hj]. apply list_lookup_insert_eq. exact Hj.
  - destruct (decide (i = j)) as [-> | Hne].
    + rewrite list_insert_ge by lia. reflexivity.
    + apply list_lookup_insert_ne. exact Hne.
Qed.

Lemma setPixel_length (buf : list Z) (idx : Z) :
  length (setPixel r g b buf idx) = length buf.
Proof. unfold setPixel. rewrite !bufferSet_length. reflexivity. Qed.

Lemma setPixel_lookup (buf : list Z) (p q c : nat) :
  (c < 4)%nat -> (4 * p + 3 < length buf)%nat ->
  setPixel r g b buf (Z.of_nat (4 * p)) !! (4 * q + c)%nat
  = if decide (p = q) then Some (chanValue r g b c)
    else buf !! (4 * q + c)%nat.
Proof.
  intros Hc Hlen. unfold setPixel.
  replace (Z.of_nat (4 * p) + 1) with (Z.of_nat (4 * p + 1)) by lia.
  replace (Z.of_nat (4 * p) + 2) with (Z.of_nat (4 * p + 2)) by lia.
  replace (Z.of_nat (4 * p) + 3) with (Z.of_nat (4 * p + 3)) by lia.
  rewrite !bufferSet_lookup, !bufferSet_length.
  destruct (decide (p = q)) as [-> | Hne].
  - destruct c as [| [| [| [| c]]]]; [| | | | lia];
      repeat case_decide; try lia; reflexivity.
  - repeat case_decide; try lia; reflexivity.
Qed.

Lemma pixelIndex_eq (w y x : nat) :
  Z.of_nat (4 * (w * y + x)) < 2 ^ 31 ->
  pixelIndex w y x = Z.of_nat (4 * (w * y + x)).
Proof.
  intros Hb. unfold pixelIndex.
  rewrite shl_small by lia. rewrite ToInt32_small by lia. lia.
Qed.

(** The inner loop, after its first [n] columns. *)
Lemma fillRow_prefix (w y n : nat) (buf : list Z) :
  (n <= w)%nat -> (4 * (w * y + w) <= length buf)%nat ->
  Z.of_nat (length buf) < 2 ^ 31 ->
  let buf' := foldl (fun buf x => setPixel r g b buf (pixelIndex w y x))
                    buf (seq 0 n) in
  length buf' = length buf
  /\ forall q c, (c < 4)%nat ->
       buf' !! (4 * q + c)%nat
       = if decide (w * y <= q < w * y + n)%nat
         then Some (chanValue r g b c) else buf !! (4 * q + c)%nat.
Proof.
  intros Hn Hlen Hbound. cbv zeta. induction n as [| n IH].
  - cbn. split; [reflexivity |]. intros q c Hc.
    case_decide; [lia | reflexivity].
  - destruct IH as [IHlen IHget]; [lia |].
    rewrite seq_S, foldl_app. cbn [foldl Nat.add].
    rewrite pixelIndex_eq by lia.
    split; [rewrite setPixel_length; exact IHlen |].
    intros q c Hc. rewrite setPixel_lookup by lia.
    rewrite IHget by exact Hc.
    repeat case_decide; try lia; reflexivity.
Qed.

Lemma fillRow_spec (w y : nat) (buf : list Z) :
  (4 * (w * y + w) <= length buf)%nat ->
  Z.of_nat (length buf) < 2 ^ 31 ->
  length (fillRow w r g b buf y) = length buf
  /\ forall q c, (c < 4)%nat ->
       fillRow w r g b buf y !! (4 * q + c)%nat
       = if decide (w * y <= q < w * y + w)%nat
         then Some (chanValue r g b c) else buf !! (4 * q + c)%nat.
Proof.
  intros Hlen Hbound. unfold fillRow.
  apply (fillRow_prefix w y w buf); [lia | exact Hlen | exact Hbound].
Qed.

(** The outer loop, after its first [m] rows. *)
Lemma fillPixels_prefix (w h m : nat) (buf : list Z) :
  (m <= h)%nat -> (4 * (w * h) <= length buf)%nat ->
  Z.of_nat (length buf) < 2 ^ 31 ->
  let buf' := foldl (fillRow w r g b) buf (seq 0 m) in
  length buf' = length buf
  /\ forall q c, (c < 4)%nat ->
       buf' !! (4 * q + c)%nat
       = if decide (q < w * m)%nat
         then Some (chanValue r g b c) else buf !! (4 * q + c)%nat.
Proof.
  intros Hm Hlen Hbound. cbv zeta. induction m as [| m IH].
  - cbn. split; [reflexivity |]. intros q c Hc.
    case_decide; [lia | reflexivity].
  - destruct IH as [IHlen IHget]; [lia |].
    rewrite seq_S, foldl_app. cbn [foldl Nat.add].
    assert (Hrow : (w * m + w <= w * h)%nat) by nia.
    destruct (fillRow_spec w m (foldl (fillRow w r g b) buf (seq 0 m)))
      as [Hl Hg]; [lia | lia |].
    split; [lia |].
    intros q c Hc. rewrite Hg by exact Hc. rewrite IHget by exact Hc.
    repeat case_decide; try nia; reflexivity.
Qed.

Lemma fillPixels_spec (w h : nat) (buf : list Z) :
  (4 * (w * h) <= length buf)%nat ->
  Z.of_nat (length buf) < 2 ^ 31 ->
  length (fillPixels w h r g b buf) = length buf
  /\ forall q c, (c < 4)%nat -> (q < w * h)%nat ->
       fillPixels w h r g b buf !! (4 * q + c)%nat
       = Some (chanValue r g b c).
Proof.
  intros Hlen Hbound. unfold fillPixels.
  destruct (fillPixels_prefix w h h buf) as [Hl Hg];
    [lia | exact Hlen | exact Hbound |].
  split; [exact Hl |].
  intros q c Hc Hq. rewrite Hg by exact Hc.
  case_decide; [reflexivity | lia].
Qed.

End Fill.

(** The image [createPngBase64] hands to the encoder. *)
Lemma createPng_data (r g b : Z) :
  length (data (createPng [r; g; b])) = (4 * (128 * 128))%nat
  /\ forall q c, (c < 4)%nat -> (q < 128 * 128)%nat ->
       data (createPng [r; g; b]) !! (4 * q + c)%nat
       = Some (chanValue (Some r) (Some g) (Some b) c).
Proof.
  unfold createPng, newPNG. cbn [data width height colorType lookup list_lookup].
  destruct (fillPixels_spec (Some r) (Some g) (Some b) 128 128
              (replicate (4 * 128 * 128) 0)) as [Hl Hg].
  - rewrite length_replicate. lia.
  - rewrite length_replicate. lia.
  - split; [rewrite Hl, length_replicate; lia | exact Hg].
Qed.

Lemma chanValue_range (r g b : option Z) (c : nat) :
  0 <= chanValue r g b c < 256.
Proof.
  destruct c as [| [| [| c]]]; cbn; try lia;
    match goal with |- _ <= ToUint8 ?v < _ => destruct v; cbn end;
    try lia; apply Z.mod_pos_bound; lia.
Qed.

Lemma createPng_pixelAt (r g b : Z) (x y : nat) :
  channel r -> channel g -> channel b ->
  (x < 128)%nat -> (y < 128)%nat ->
  pixelAt (createPng [r; g; b]) x y = Some (r, g, b, 255).
Proof.
  unfold channel. intros Hr Hg Hb Hx Hy.
  destruct (createPng_data r g b) as [_ Hget].
  unfold pixelAt.
  change (width (createPng [r; g; b])) with 128%nat.
  set (png := createPng [r; g; b]) in *. clearbody png.
  set (q := (128 * y + x)%nat).
  assert (Hq : (q < 128 * 128)%nat) by (subst q; lia).
  rewrite <- (Nat.add_0_r (4 * q)) at 1.
  rewrite !Hget by lia. cbn [chanValue ToUint8].
  rewrite !Z.mod_small by lia. reflexivity.
Qed.

Lemma createPng_opaque (r g b : Z) : opaqueImage (createPng [r; g; b]).
Proof.
  destruct (createPng_data r g b) as [Hlen Hget].
  unfold opaqueImage.
  change (width (createPng [r; g; b])) with 128%nat.
  change (height (createPng [r; g; b])) with 128%nat.
  change (colorType (createPng [r; g; b])) with 2.
  split; [reflexivity |]. split; [exact Hlen |]. split.
  - apply Forall_lookup. intros i v Hi.
    assert (Hlt : (i < 4 * (128 * 128))%nat).
    { rewrite <- Hlen. apply lookup_lt_Some with v. exact Hi. }
    pose proof (Nat.div_mod_eq i 4) as Hdm.
    pose proof (Nat.mod_upper_bound i 4 ltac:(lia)) as Hm.
    rewrite Hdm, Hget in Hi by lia.
    injection Hi as <-. apply chanValue_range.
  - intros q Hq. rewrite Hget by lia. reflexivity.
Qed.

Section Codec.
Variable PNG_sync_write : PNG -> list Z.
Variable toBase64 : list Z -> string.
Variable decode : string -> option PNG.
Hypothesis decode_inverts : decodes PNG_sync_write toBase64 decode.

(** C9. With an encoder whose output a decoder turns back into the image,
    decoding the data URL made for a colour with channels in 0..255 gives
    a 128 by 128 image in which every pixel is that colour with alpha 255;
    and the data URL depends on the colour alone. *)
Theorem createPngBase64_roundtrip (r g b : Z) :
  channel r -> channel g -> channel b ->
  (exists img,
      decode (createPngBase64 PNG_sync_write toBase64 [r; g; b]) = Some img
      /\ width img = 128%nat /\ height img = 128%nat
      /\ forall x y, (x < 128)%nat -> (y < 128)%nat ->
                     pixelAt img x y = Some (r, g, b, 255))
  /\ forall color, color = [r; g; b] ->
       createPngBase64 PNG_sync_write toBase64 color
       = createPngBase64 PNG_sync_write toBase64 [r; g; b].
Proof.
  intros Hr Hg Hb. split.
  - exists (createPng [r; g; b]). split.
    + unfold createPngBase64. apply decode_inverts. apply createPng_opaque.
    + split; [reflexivity |]. split; [reflexivity |].
      intros x y Hx Hy. apply createPng_pixelAt; assumption.
  - intros color ->. reflexivity.
Qed.

End Codec.

(** The plain codec meets the contract. *)
Lemma append_String (c : ascii) (s t : string) :
  String c s ++ t = String c (s ++ t).
Proof. reflexivity. Qed.

Lemma unaryDecode_unary (n acc : nat) (s : string) :
  unaryDecode acc (unary n ++ s) = (acc + n)%nat :: unaryDecode 0 s.
Proof.
  revert acc. induction n as [| n IH]; intros acc; cbn [unary];
    rewrite append_String; cbn [unaryDecode Ascii.eqb Bool.eqb].
  - f_equal. lia.
  - rewrite IH. f_equal. lia.
Qed.

Lemma unaryDecode_unaryList (l : list nat) :
  unaryDecode 0 (unaryList l) = l.
Proof.
  induction l as [| n l IH]; [reflexivity |].
  cbn [unaryList]. rewrite unaryDecode_unary, IH. reflexivity.
Qed.

Lemma dataUrl_payload (toBase64 : list Z -> string) (bytes : list Z) :
  JS.slice 22 (dataUrl toBase64 bytes) = toBase64 bytes.
Proof. reflexivity. Qed.

Lemma plain_decodes : decodes plainWrite plainText plainDecode.
Proof.
  intros png (Hct & _ & Hbytes & _).
  unfold plainDecode. rewrite dataUrl_payload.
  unfold plainText, plainWrite. rewrite unaryDecode_unaryList.
  cbn [map]. rewrite Hct, !Nat2Z.id. destruct png as [w h ct bytes].
  cbn [width height colorType data] in *. subst ct.
  change (Z.of_nat (Z.to_nat 2)) with 2. f_equal. f_equal.
  induction Hbytes as [| v l Hv _ IH]; [reflexivity |].
  cbn [map]. rewrite IH. f_equal. lia.
Qed.

Lemma createPngBase64_roundtrip_witness :
  decodes plainWrite plainText plainDecode
  /\ exists img,
       plainDecode (createPngBase64 plainWrite plainText [255; 0; 128])
       = Some img
       /\ width img = 128%nat /\ height img = 128%nat
       /\ forall x y, (x < 128)%nat -> (y < 128)%nat ->
                      pixelAt img x y = Some (255, 0, 128, 255).
Proof.
  assert (H255 : channel 255) by (unfold channel; lia).
  assert (H0 : channel 0) by (unfold channel; lia).
  assert (H128 : channel 128) by (unfold channel; lia).
  split; [exact plain_decodes |].
  exact (proj1 (createPngBase64_roundtrip plainWrite plainText plainDecode
                  plain_decodes 255 0 128 H255 H0 H128)).
Defined.

(** * Further properties *)

(** ** The split of the lights text *)

Lemma append_nil_r (s : string) : s ++ "" = s.
Proof.
  induction s as [| c s IH]; [reflexivity |].
  rewrite append_String, IH. reflexivity.
Qed.

Lemma string_of_list_ascii_snoc (l : list ascii) (c : ascii) (s : string) :
  string_of_list_ascii (l ++ [c]) ++ s = string_of_list_ascii l ++ String c s.
Proof.
  induction l as [| a l IH]; [reflexivity |].
  cbn [app string_of_list_ascii]. rewrite !append_String. f_equal. exact IH.
Qed.

Lemma splitCommaSpace_unfold (piece : list ascii) (c : ascii) (rest : string) :
  JS.splitCommaSpace piece (String c rest)
  = if Ascii.eqb c ","
    then match rest with
         | String c' rest' =>
             if Ascii.eqb c' " "
             then Some (string_of_list_ascii (rev piece))
                    :: Some " " :: JS.splitCommaSpace [] rest'
             else Some (string_of_list_ascii (rev piece))
                    :: None :: JS.splitCommaSpace [] rest
         | "" => Some (string_of_list_ascii (rev piece))
                   :: None :: JS.splitCommaSpace [] rest
         end
    else JS.splitCommaSpace (c :: piece) rest.
Proof. reflexivity. Qed.

Lemma splitCommaSpace_unsplit (s : string) :
  (forall piece,
      unsplit (JS.splitCommaSpace piece s)
      = string_of_list_ascii (rev piece) ++ s)
  /\ (forall c piece,
         unsplit (JS.splitCommaSpace piece (String c s))
         = string_of_list_ascii (rev piece) ++ String c s).
Proof.
  induction s as [| a s [IH1 IH2]].
  - split.
    + intros piece. cbn. symmetry. apply append_nil_r.
    + intros c piece. rewrite splitCommaSpace_unfold.
      destruct (Ascii.eqb_spec c ",") as [-> | Hc].
      * reflexivity.
      * cbn [JS.splitCommaSpace unsplit rev].
        rewrite <- (append_nil_r (string_of_list_ascii (rev piece ++ [c]))).
        apply string_of_list_ascii_snoc.
  - split; [intros piece; apply IH2 |].
    intros c piece. rewrite splitCommaSpace_unfold.
    destruct (Ascii.eqb_spec c ",") as [-> | Hc].
    + destruct (Ascii.eqb_spec a " ") as [-> | Ha].
      * cbn [unsplit default]. rewrite (IH1 []). reflexivity.
      * cbn [unsplit default]. rewrite (IH2 a []). reflexivity.
    + rewrite (IH2 a (c :: piece)). cbn [rev].
      apply string_of_list_ascii_snoc.
Qed.

(** X1. Nothing of the lights text is lost in the split: its pieces, put
    back together with a comma and the captured space after each, are the
    text again. *)
Theorem split_unsplit (s : string) : unsplit (JS.split s) = s.
Proof.
  unfold JS.split. destruct (splitCommaSpace_unsplit s) as [H _].
  rewrite (H []). reflexivity.
Qed.

Lemma splitCommaSpace_length (s : string) :
  (forall piece,
      length (JS.splitCommaSpace piece s) = (1 + 2 * commas s)%nat)
  /\ (forall c piece,
         length (JS.splitCommaSpace piece (String c s))
         = (1 + 2 * commas (String c s))%nat).
Proof.
  induction s as [| a s [IH1 IH2]].
  - split; [reflexivity |]. intros c piece. rewrite splitCommaSpace_unfold.
    cbn [commas]. destruct (Ascii.eqb c ","); reflexivity.
  - split; [intros piece; apply IH2 |].
    intros c piece. rewrite splitCommaSpace_unfold.
    change (commas (String c (String a s)))
      with (if Ascii.eqb c "," then S (commas (String a s))
            else commas (String a s)).
    destruct (Ascii.eqb c ",").
    + destruct (Ascii.eqb_spec a " ") as [-> | Ha]; cbn [length].
      * rewrite (IH1 []). cbn [commas Ascii.eqb Bool.eqb]. lia.
      * rewrite (IH2 a []). lia.
    + apply IH2.
Qed.

Lemma split_length (s : string) :
  length (JS.split s) = (1 + 2 * commas s)%nat.
Proof. unfold JS.split. apply (proj1 (splitCommaSpace_length s)). Qed.

Lemma commas_app (s t : string) :
  commas (s ++ t) = (commas s + commas t)%nat.
Proof.
  induction s as [| c s IH]; [reflexivity |].
  rewrite append_String. cbn [commas]. rewrite IH.
  destruct (Ascii.eqb c ","); reflexivity.
Qed.

Lemma splitCommaSpace_no_comma (s : string) (piece : list ascii) :
  commas s = 0%nat ->
  JS.splitCommaSpace piece s
  = [Some (string_of_list_ascii (rev piece) ++ s)].
Proof.
  revert piece. induction s as [| c s IH]; intros piece Hs.
  - cbn. rewrite append_nil_r. reflexivity.
  - cbn [commas] in Hs. rewrite splitCommaSpace_unfold.
    destruct (Ascii.eqb c ","); [discriminate |].
    rewrite IH by exact Hs. cbn [rev].
    rewrite string_of_list_ascii_snoc. reflexivity.
Qed.

(** X2. [changeLampColor] sends one request for a lights text without a
    comma and two more for every comma in it: never none, and never an even
    number. *)
Theorem changeLampColor_request_count (env : Env) (color : option (list Z))
    (settings : LightSettings) :
  length (fetches (trace (changeLampColor env color settings
                            (start settings)).2))
  = (1 + 2 * commas (lights settings))%nat.
Proof.
  rewrite changeLampColor_run. cbn [snd trace start app].
  rewrite fetches_dispatchEvents. unfold requests.
  rewrite length_map. apply split_length.
Qed.

(** X3. With a single light configured (no comma in the lights text),
    [changeLampColor] sends exactly one request, whose [entity_id] is that
    text and whose [rgb_color] is the colour given. *)
Theorem changeLampColor_single_light (env : Env) (color : option (list Z))
    (settings : LightSettings) :
  commas (lights settings) = 0%nat ->
  fetches (trace (changeLampColor env color settings (start settings)).2)
  = [requestFor color settings (Some (lights settings))].
Proof.
  intros Hone. rewrite changeLampColor_run. cbn [snd trace start app].
  rewrite fetches_dispatchEvents. unfold requests, JS.split.
  rewrite splitCommaSpace_no_comma by exact Hone. reflexivity.
Qed.

Lemma changeLampColor_single_light_witness :
  commas (lights (with_lights "light.desk" idle)) = 0%nat
  /\ map (fun r => entity_id (body r))
         (fetches (trace (changeLampColor (quiet ExecRejects)
                            (Some [255; 0; 128])
                            (with_lights "light.desk" idle)
                            (start (with_lights "light.desk" idle))).2))
     = [Some "light.desk"].
Proof.
  split; [reflexivity |].
  exact (f_equal (map (fun r => entity_id (body r)))
           (changeLampColor_single_light (quiet ExecRejects)
              (Some [255; 0; 128]) (with_lights "light.desk" idle) eq_refl)).
Defined.

Lemma commas_snoc_piece (l : list ascii) (c : ascii) :
  Ascii.eqb c "," = false ->
  commas (string_of_list_ascii l) = 0%nat ->
  commas (string_of_list_ascii (l ++ [c])) = 0%nat.
Proof.
  intros Hc Hl.
  rewrite <- (append_nil_r (string_of_list_ascii (l ++ [c]))).
  rewrite string_of_list_ascii_snoc, commas_app, Hl.
  cbn [commas]. rewrite Hc. reflexivity.
Qed.

Lemma commaFree_Some (p : string) : commas p = 0%nat -> commaFree (Some p).
Proof. intros Hp q [= <-]. exact Hp. Qed.

Lemma commaFree_None : commaFree None.
Proof. intros q [=]. Qed.

Lemma splitCommaSpace_commaFree (s : string) :
  (forall piece, commas (string_of_list_ascii (rev piece)) = 0%nat ->
                 Forall commaFree (JS.splitCommaSpace piece s))
  /\ (forall c piece, commas (string_of_list_ascii (rev piece)) = 0%nat ->
                      Forall commaFree
                        (JS.splitCommaSpace piece (String c s))).
Proof.
  induction s as [| a s [IH1 IH2]].
  - split.
    + intros piece Hp. cbn. repeat constructor. apply commaFree_Some, Hp.
    + intros c piece Hp. rewrite splitCommaSpace_unfold.
      destruct (Ascii.eqb c ",") eqn:Hc.
      * repeat constructor;
          [apply commaFree_Some, Hp | apply commaFree_None
          | apply commaFree_Some; reflexivity].
      * cbn [JS.splitCommaSpace rev]. repeat constructor.
        apply commaFree_Some, commas_snoc_piece; assumption.
  - split; [intros piece; apply IH2 |].
    intros c piece Hp. rewrite splitCommaSpace_unfold.
    destruct (Ascii.eqb c ",") eqn:Hc.
    + destruct (Ascii.eqb a " ").
      * constructor; [apply commaFree_Some, Hp |].
        constructor; [apply commaFree_Some; reflexivity |].
        apply IH1. reflexivity.
      * constructor; [apply commaFree_Some, Hp |].
        constructor; [apply commaFree_None |].
        apply IH2. reflexivity.
    + apply IH2. cbn [rev]. apply commas_snoc_piece; assumption.
Qed.

(** X4. No request of [changeLampColor] names an [entity_id] with a comma in
    it: every comma of the lights text is taken as a separator. *)
Theorem changeLampColor_ids_comma_free (env : Env) (color : option (list Z))
    (settings : LightSettings) :
  Forall (fun q => forall id, entity_id (body q) = Some id ->
                              commas id = 0%nat)
         (fetches (trace (changeLampColor env color settings
                            (start settings)).2)).
Proof.
  rewrite changeLampColor_run. cbn [snd trace start app].
  rewrite fetches_dispatchEvents. unfold requests, JS.split.
  destruct (splitCommaSpace_commaFree (lights settings)) as [H _].
  specialize (H [] eq_refl).
  induction H as [| e l He _ IH]; cbn [map]; constructor; [| exact IH].
  exact He.
Qed.

(** ** Failed requests *)

Lemma consoleErrors_app (t1 t2 : list Effect) :
  consoleErrors (t1 ++ t2) = (consoleErrors t1 ++ consoleErrors t2)%list.
Proof. unfold consoleErrors. apply omap_app. Qed.

Lemma consoleErrors_fetchEvents (env : Env) (rs : list Request) :
  consoleErrors (concat (map (fetchEvents env) rs))
  = List.filter (fun q => failed (response env q)) rs.
Proof.
  induction rs as [| r rs IH]; [reflexivity |].
  cbn [map concat List.filter]. rewrite consoleErrors_app, IH.
  unfold fetchEvents. destruct (response env r); reflexivity.
Qed.

(** X5. A request that fails does not stop the others: whatever the network
    answers, [changeLampColor] resolves and sends the same requests, leaves
    the persisted record alone, and logs exactly the requests that
    failed. *)
Theorem changeLampColor_failure_isolation (env : Env)
    (resp : Request -> FetchOutcome) (color : option (list Z))
    (settings : LightSettings) :
  let r := changeLampColor env color settings (start settings) in
  let r' := changeLampColor (with_response resp env) color settings
              (start settings) in
  r.1 = Resolved tt
  /\ fetches (trace r.2) = fetches (trace r'.2)
  /\ persisted r.2 = settings
  /\ consoleErrors (trace r.2)
     = List.filter (fun q => failed (response env q)) (fetches (trace r.2)).
Proof.
  cbv zeta. rewrite !changeLampColor_run. cbn [fst snd trace persisted start app].
  rewrite !fetches_dispatchEvents.
  split; [reflexivity |]. split; [reflexivity |]. split; [reflexivity |].
  apply consoleErrors_fetchEvents.
Qed.

(** X6. The answers of the network change nothing of what the two key
    handlers decide: with other answers they end the same way, persist the
    same record, make the same settings writes and send the same
    requests. *)
Theorem handlers_ignore_responses (env : Env)
    (resp : Request -> FetchOutcome) (s : LightSettings) :
  let env' := with_response resp env in
  ((onKeyDown env (start s)).1 = (onKeyDown env' (start s)).1
   /\ persisted (onKeyDown env (start s)).2
      = persisted (onKeyDown env' (start s)).2
   /\ writes (trace (onKeyDown env (start s)).2)
      = writes (trace (onKeyDown env' (start s)).2)
   /\ fetches (trace (onKeyDown env (start s)).2)
      = fetches (trace (onKeyDown env' (start s)).2))
  /\ ((onKeyUp env (start s)).1 = (onKeyUp env' (start s)).1
      /\ persisted (onKeyUp env (start s)).2
         = persisted (onKeyUp env' (start s)).2
      /\ writes (trace (onKeyUp env (start s)).2)
         = writes (trace (onKeyUp env' (start s)).2)
      /\ fetches (trace (onKeyUp env (start s)).2)
         = fetches (trace (onKeyUp env' (start s)).2)).
Proof.
  cbv zeta. rewrite !onKeyDown_run, !onKeyUp_run. cbv zeta.
  cbn [start persisted trace with_response whileWaiting picker].
  rewrite !app_nil_l. split.
  - destruct (isDown (whileWaiting env (with_isDown true s)));
      cbn [fst snd persisted trace]; repeat split.
    + rewrite !writes_app. unfold dispatchEvents.
      rewrite !writes_fetchEvents. reflexivity.
    + rewrite !fetches_app, !fetches_dispatchEvents. reflexivity.
  - destruct (longPress s); [repeat split |].
    destruct (picker env) as [| | color]; cbn [fst snd persisted trace];
      rewrite ?app_nil_l; repeat split.
    + rewrite !writes_shortPressEvents. reflexivity.
    + rewrite !fetches_shortPressEvents. reflexivity.
Qed.

(** ** The hex text outside the data model *)

Lemma add_NaN (a : JS.number) : JS.add a JS.NaN = JS.NaN.
Proof. destruct a; reflexivity. Qed.

(** X7. For an array with fewer than three elements the hex text is "#AN":
    the missing channel makes the sum [NaN], whose text loses its first
    letter and is put in upper case. *)
Theorem hex_short_array (color : list Z) :
  (length color < 3)%nat -> hex color = "#AN".
Proof.
  intros Hlen. unfold hex.
  rewrite (lookup_ge_None_2 color 2) by lia.
  cbn [JS.ToNumber]. rewrite add_NaN. reflexivity.
Qed.

Lemma hex_short_array_witness :
  (length [7; 9] < 3)%nat /\ hex [7; 9] = "#AN".
Proof.
  assert (H : (length [7; 9] < 3)%nat) by (cbn; lia).
  split; [exact H | exact (hex_short_array [7; 9] H)].
Defined.

Lemma upperHexDigit_inj (d e : Z) :
  0 <= d < 16 -> 0 <= e < 16 ->
  upperHexDigit d = upperHexDigit e -> d = e.
Proof.
  intros Hd He.
  assert (Hcd : d = 0 \/ d = 1 \/ d = 2 \/ d = 3 \/ d = 4 \/ d = 5 \/ d = 6
                \/ d = 7 \/ d = 8 \/ d = 9 \/ d = 10 \/ d = 11 \/ d = 12
                \/ d = 13 \/ d = 14 \/ d = 15) by lia.
  assert (Hce : e = 0 \/ e = 1 \/ e = 2 \/ e = 3 \/ e = 4 \/ e = 5 \/ e = 6
                \/ e = 7 \/ e = 8 \/ e = 9 \/ e = 10 \/ e = 11 \/ e = 12
                \/ e = 13 \/ e = 14 \/ e = 15) by lia.
  repeat (destruct Hcd as [-> | Hcd]);
    repeat (destruct Hce as [-> | Hce]);
    subst; cbn; intros H; first [reflexivity | discriminate H].
Qed.

Lemma hex2_inj (m n : Z) :
  channel m -> channel n -> hex2 m = hex2 n -> m = n.
Proof.
  unfold channel, hex2. intros Hm Hn H. injection H as Hhi Hlo.
  apply upperHexDigit_inj in Hhi; [| div_lia | div_lia].
  apply upperHexDigit_inj in Hlo; [| div_lia | div_lia].
  div_lia.
Qed.

(** X8. Two colours of the data model with the same hex text are the same
    colour: the cached [colorHex] determines [colorRgb]. *)
Theorem hex_injective (r g b r' g' b' : Z) :
  channel r -> channel g -> channel b ->
  channel r' -> channel g' -> channel b' ->
  hex [r; g; b] = hex [r'; g'; b'] ->
  [r; g; b] = [r'; g'; b'].
Proof.
  intros Hr Hg Hb Hr' Hg' Hb' H.
  rewrite !hex_of_channels in H by assumption.
  unfold hexFormat in H.
  assert (Hsplit : forall m, exists c d, hex2 m = String c (String d "")).
  { intros m. unfold hex2. eauto. }
  destruct (Hsplit r) as (c1 & d1 & E1), (Hsplit g) as (c2 & d2 & E2),
    (Hsplit b) as (c3 & d3 & E3), (Hsplit r') as (c4 & d4 & E4),
    (Hsplit g') as (c5 & d5 & E5), (Hsplit b') as (c6 & d6 & E6).
  rewrite E1, E2, E3, E4, E5, E6 in H.
  injection H as -> -> -> -> -> ->.
  rewrite <- E4 in E1. rewrite <- E5 in E2. rewrite <- E6 in E3.
  apply hex2_inj in E1, E2, E3; try assumption. subst. reflexivity.
Qed.

Lemma hex_injective_witness :
  hex [255; 0; 128] = hex [255; 0; 128]
  /\ [255; 0; 128] = [255; 0; 128].
Proof.
  assert (H255 : channel 255) by (unfold channel; lia).
  assert (H0 : channel 0) by (unfold channel; lia).
  assert (H128 : channel 128) by (unfold channel; lia).
  split; [reflexivity |].
  exact (hex_injective 255 0 128 255 0 128 H255 H0 H128 H255 H0 H128
           eq_refl).
Defined.

(** ** The thumbnail of any array *)

Lemma createPng_data_any (color : list Z) :
  length (data (createPng color)) = (4 * (128 * 128))%nat
  /\ forall q c, (c < 4)%nat -> (q < 128 * 128)%nat ->
       data (createPng color) !! (4 * q + c)%nat
       = Some (chanValue (color !! 0%nat) (color !! 1%nat)
                         (color !! 2%nat) c).
Proof.
  unfold createPng, newPNG. cbn [data width height colorType].
  destruct (fillPixels_spec (color !! 0%nat) (color !! 1%nat)
              (color !! 2%nat) 128 128 (replicate (4 * 128 * 128) 0))
    as [Hl Hg].
  - rewrite length_replicate. lia.
  - rewrite length_replicate. lia.
  - split; [rewrite Hl, length_replicate; lia | exact Hg].
Qed.

(** X9. Whatever array the thumbnail is drawn for, the image is 128 by 128
    with a full buffer, and every pixel holds the first three elements
    reduced to eight bits (0 for a missing one) with alpha 255. *)
Theorem createPng_any_color (color : list Z) :
  width (createPng color) = 128%nat
  /\ height (createPng color) = 128%nat
  /\ length (data (createPng color)) = (4 * (128 * 128))%nat
  /\ forall x y, (x < 128)%nat -> (y < 128)%nat ->
       pixelAt (createPng color) x y
       = Some (ToUint8 (color !! 0%nat), ToUint8 (color !! 1%nat),
               ToUint8 (color !! 2%nat), 255).
Proof.
  destruct (createPng_data_any color) as [Hlen Hget].
  split; [reflexivity |]. split; [reflexivity |].
  split; [exact Hlen |].
  intros x y Hx Hy. unfold pixelAt.
  change (width (createPng color)) with 128%nat.
  set (png := createPng color) in *. clearbody png.
  set (q := (128 * y + x)%nat).
  assert (Hq : (q < 128 * 128)%nat) by (subst q; lia).
  rewrite <- (Nat.add_0_r (4 * q)) at 1.
  rewrite !Hget by lia. reflexivity.
Qed.

(** ** A whole press *)

(** X10. Hold and release: when nothing else touches the record during the
    delay, [onKeyDown] followed by [onKeyUp] sends the stored colour once,
    never runs the colour picker, leaves both colour fields as they were
    and ends with [longPress = false]. *)
Theorem long_press_cycle (p : PickerOutcome)
    (resp : Request -> FetchOutcome) (s : LightSettings) :
  let env := with_response resp (quiet p) in
  let d := onKeyDown env (start s) in
  let u := onKeyUp env d.2 in
  d.1 = Resolved tt /\ u.1 = Resolved tt
  /\ execs (trace u.2) = []
  /\ fetches (trace u.2) = requests (colorRgb s) s
  /\ colorKept s (persisted u.2)
  /\ longPress (persisted u.2) = false.
Proof.
  cbv zeta. rewrite onKeyUp_run, onKeyDown_run. cbv zeta.
  cbn [start persisted trace with_response quiet whileWaiting picker
       with_isDown with_longPress isDown longPress fst snd].
  rewrite app_nil_l.
  split; [reflexivity |]. split; [reflexivity |]. split.
  - rewrite !execs_app. unfold dispatchEvents. rewrite execs_fetchEvents.
    reflexivity.
  - split.
    + rewrite !fetches_app, fetches_dispatchEvents.
      cbn [fetches omap app]. rewrite app_nil_r. reflexivity.
    + split; [split; reflexivity | reflexivity].
Qed.

(** X11. Press and release before the delay is over: the timer of
    [onKeyDown] then does nothing, and the record that the short press of
    [onKeyUp] stored, with the picked colour and both flags cleared, is the
    one that stays. *)
Theorem short_press_cycle (color : list Z) (s : LightSettings) :
  longPress s = false ->
  let u := onKeyUp (quiet (Json color)) (start (with_isDown true s)) in
  let d := onKeyDown (keyUpMeanwhile (Json color)) (start s) in
  u.1 = Resolved tt
  /\ execs (trace u.2) = ["pick-color.exe"]
  /\ fetches (trace u.2) = requests (Some color) s
  /\ d.1 = Resolved tt
  /\ fetches (trace d.2) = []
  /\ writes (trace d.2) = [with_isDown true s]
  /\ persisted d.2 = with_color (hex color) color s
  /\ isDown (persisted d.2) = false
  /\ longPress (persisted d.2) = false.
Proof.
  cbv zeta. intros Hshort.
  pose proof (keyUpMeanwhile_released (Json color) s Hshort) as Hup.
  rewrite onKeyDown_run. cbv zeta. cbn [start persisted trace].
  rewrite Hup. cbn [keyUpMeanwhile whileWaiting].
  rewrite !onKeyUp_run. cbv zeta.
  cbn [start persisted trace with_isDown longPress quiet picker fst snd].
  rewrite Hshort. cbn [fst snd persisted trace]. rewrite !app_nil_l.
  split; [reflexivity |]. split.
  - unfold shortPressEvents. rewrite !execs_app. unfold dispatchEvents.
    rewrite execs_fetchEvents. reflexivity.
  - split; [rewrite fetches_shortPressEvents; reflexivity |]. repeat split.
Qed.

Lemma short_press_cycle_witness :
  longPress idle = false
  /\ persisted (onKeyDown (keyUpMeanwhile (Json [0; 255; 0])) (start idle)).2
     = with_color (hex [0; 255; 0]) [0; 255; 0] idle.
Proof.
  split; [reflexivity |].
  exact (proj1 (proj2 (proj2 (proj2 (proj2 (proj2 (proj2
    (short_press_cycle [0; 255; 0] idle eq_refl)))))))).
Defined.

(** ** What the button shows *)

Lemma titles_app (t1 t2 : list Effect) :
  titles (t1 ++ t2) = (titles t1 ++ titles t2)%list.
Proof. unfold titles. apply omap_app. Qed.

Lemma titles_fetchEvents (env : Env) (rs : list Request) :
  titles (concat (map (fetchEvents env) rs)) = [].
Proof.
  induction rs as [| r rs IH]; [reflexivity |].
  cbn [map concat]. rewrite titles_app, IH.
  unfold fetchEvents. destruct (response env r); reflexivity.
Qed.

(** X12. After a short press the title is computed from the record read
    when the key went up, not from the colour just picked: a button that
    shows the hex text keeps showing the previous one, while the record
    stored holds the new one. *)
Theorem short_press_title_is_previous (env : Env) (s : LightSettings)
    (color : list Z) (h : string) :
  longPress s = false -> picker env = Json color ->
  showValue s = "hex" -> colorHex s = Some h -> h <> "" ->
  let u := onKeyUp env (start s) in
  titles (trace u.2) = [h]
  /\ colorHex (persisted u.2) = Some (hex color).
Proof.
  cbv zeta. intros Hshort Hpick Hshow Hhex Hh.
  rewrite onKeyUp_run. cbv zeta. cbn [start persisted trace].
  rewrite Hshort, Hpick. cbn [snd trace persisted]. rewrite app_nil_l.
  split; [| reflexivity].
  unfold shortPressEvents. rewrite !titles_app. unfold dispatchEvents.
  rewrite titles_fetchEvents. cbn [titles omap app].
  unfold titleText. rewrite Hshow, Hhex.
  destruct h as [| c h]; [congruence | reflexivity].
Qed.

Lemma short_press_title_is_previous_witness :
  titles (trace (onKeyUp (quiet (Json [0; 255; 0])) (start idle)).2)
  = ["#FF0080"]
  /\ colorHex (persisted (onKeyUp (quiet (Json [0; 255; 0]))
                            (start idle)).2)
     = Some "#00FF00".
Proof.
  exact (short_press_title_is_previous (quiet (Json [0; 255; 0])) idle
           [0; 255; 0] "#FF0080" eq_refl eq_refl eq_refl eq_refl
           ltac:(discriminate)).
Defined.

(** X13. The two handlers that only refresh the button, [onWillAppear] and
    [onDidReceiveSettings], set the title that [setTitle] chooses for the
    record and do nothing else to the world: no settings write, no request,
    no colour picker; [onWillAppear] also shows the thumbnail of the stored
    colour, and shows none when no colour is stored. *)
Theorem display_handlers (s : LightSettings) :
  let a := onWillAppear (start s) in
  let r := onDidReceiveSettings s (start s) in
  (a.1 = Resolved tt /\ persisted a.2 = s
   /\ writes (trace a.2) = [] /\ fetches (trace a.2) = []
   /\ execs (trace a.2) = []
   /\ titles (trace a.2) = [titleText s]
   /\ images (trace a.2) = match colorRgb s with
                           | Some color => [createPng color]
                           | None => []
                           end)
  /\ (r.1 = Resolved tt /\ persisted r.2 = s
      /\ trace r.2 = [SetTitle (titleText s)]).
Proof.
  cbv zeta. unfold onWillAppear, onDidReceiveSettings. run_async.
  rewrite !setTitle_titleText. unfold action_setTitle, action_setImage.
  run_async. cbn [start persisted trace app].
  split; [| repeat split].
  destruct (colorRgb s); repeat split.
Qed.

(** ** The variant configured by the process environment *)

Ltac run_variant :=
  unfold mbind, EnvVariant.Async_bind, mret, EnvVariant.Async_ret,
    EnvVariant.getSettings, EnvVariant.setSettings, EnvVariant.sleep,
    EnvVariant.emit, EnvVariant.reject, EnvVariant.action_setTitle,
    EnvVariant.action_setImage, EnvVariant.changeLampColor,
    EnvVariant.fetch, EnvVariant.pickColor;
  cbn [EnvVariant.persisted EnvVariant.trace fst snd].

(** X14. In this variant a short press whose colour picker prints an array
    sends one request, to the configured address for the configured entity
    with that array; stores the array with its hex text and both flags
    cleared; and sets the title to that same new hex text and the image to
    the thumbnail of the array. *)
Theorem variant_short_press (env : EnvVariant.Env)
    (s : EnvVariant.LightSettings) (color : list Z) :
  EnvVariant.longPress s = false ->
  EnvVariant.picker env = Json color ->
  let u := EnvVariant.onKeyUp env (EnvVariant.start s) in
  u.1 = Resolved tt
  /\ EnvVariant.execs (EnvVariant.trace u.2) = ["pick-color.exe"]
  /\ EnvVariant.fetches (EnvVariant.trace u.2)
     = [{| req_url := EnvVariant.URL (EnvVariant.vars env);
           method := "POST";
           authorization := "Bearer " ++ EnvVariant.TOKEN (EnvVariant.vars env);
           content_type := "application/json";
           body := {| entity_id
                        := Some (EnvVariant.ENTITY_ID (EnvVariant.vars env));
                      rgb_color := Some color |} |}]
  /\ EnvVariant.persisted u.2
     = {| EnvVariant.colorHex := Some (hex color);
          EnvVariant.colorRgb := Some color;
          EnvVariant.isDown := false;
          EnvVariant.longPress := false |}
  /\ EnvVariant.titles (EnvVariant.trace u.2) = [hex color]
  /\ EnvVariant.images (EnvVariant.trace u.2) = [EnvVariant.createPng color].
Proof.
  cbv zeta. intros Hshort Hpick. unfold EnvVariant.onKeyUp. run_variant.
  cbn [EnvVariant.start EnvVariant.persisted EnvVariant.trace].
  rewrite Hshort. cbn [negb]. run_variant. rewrite Hpick. run_variant.
  destruct (EnvVariant.response env
              (EnvVariant.requestFor env (Some color))); run_variant;
    repeat split.
Qed.

Lemma variant_short_press_witness :
  EnvVariant.longPress EnvVariant.idle = false
  /\ EnvVariant.picker (EnvVariant.quiet (Json [0; 255; 0])) = Json [0; 255; 0]
  /\ EnvVariant.titles
       (EnvVariant.trace
          (EnvVariant.onKeyUp (EnvVariant.quiet (Json [0; 255; 0]))
             (EnvVariant.start EnvVariant.idle)).2)
     = ["#00FF00"].
Proof.
  split; [reflexivity |]. split; [reflexivity |].
  exact (proj1 (proj2 (proj2 (proj2 (proj2
    (variant_short_press (EnvVariant.quiet (Json [0; 255; 0]))
       EnvVariant.idle [0; 255; 0] eq_refl eq_refl)))))).
Defined.

(** X15. The thumbnail of this variant is 20 by 20 with a full buffer, and
    every pixel holds the first three elements of the array reduced to
    eight bits (0 for a missing one) with alpha 255. *)
Theorem variant_createPng (color : list Z) :
  width (EnvVariant.createPng color) = 20%nat
  /\ height (EnvVariant.createPng color) = 20%nat
  /\ length (data (EnvVariant.createPng color)) = (4 * (20 * 20))%nat
  /\ forall x y, (x < 20)%nat -> (y < 20)%nat ->
       pixelAt (EnvVariant.createPng color) x y
       = Some (ToUint8 (color !! 0%nat), ToUint8 (color !! 1%nat),
               ToUint8 (color !! 2%nat), 255).
Proof.
  assert (Hdata :
    length (data (EnvVariant.createPng color)) = (4 * (20 * 20))%nat
    /\ forall q c, (c < 4)%nat -> (q < 20 * 20)%nat ->
         data (EnvVariant.createPng color) !! (4 * q + c)%nat
         = Some (chanValue (color !! 0%nat) (color !! 1%nat)
                           (color !! 2%nat) c)).
  { unfold EnvVariant.createPng, newPNG. cbn [data width height colorType].
    destruct (fillPixels_spec (color !! 0%nat) (color !! 1%nat)
                (color !! 2%nat) 20 20 (replicate (4 * 20 * 20) 0))
      as [Hl Hg].
    - rewrite length_replicate. lia.
    - rewrite length_replicate. lia.
    - split; [rewrite Hl, length_replicate; lia | exact Hg]. }
  destruct Hdata as [Hlen Hget].
  split; [reflexivity |]. split; [reflexivity |]. split; [exact Hlen |].
  intros x y Hx Hy. unfold pixelAt.
  change (width (EnvVariant.createPng color)) with 20%nat.
  set (png := EnvVariant.createPng color) in *. clearbody png.
  set (q := (20 * y + x)%nat).
  assert (Hq : (q < 20 * 20)%nat) by (subst q; nia).
  rewrite <- (Nat.add_0_r (4 * q)) at 1.
  rewrite !Hget by lia. reflexivity.
Qed.

(** X16. Hold and release in this variant: when nothing else touches the
    record during the 200 ms, [onKeyDown] followed by [onKeyUp] sends the
    stored colour once, to the one configured light, never runs the colour
    picker, leaves both colour fields as they were and ends with
    [longPress = false]. *)
Theorem variant_long_press_cycle (env : EnvVariant.Env)
    (s : EnvVariant.LightSettings) :
  (forall st, EnvVariant.whileWaiting env st = st) ->
  let d := EnvVariant.onKeyDown env (EnvVariant.start s) in
  let u := EnvVariant.onKeyUp env d.2 in
  d.1 = Resolved tt /\ u.1 = Resolved tt
  /\ EnvVariant.execs (EnvVariant.trace u.2) = []
  /\ EnvVariant.fetches (EnvVariant.trace u.2)
     = [EnvVariant.requestFor env (EnvVariant.colorRgb s)]
  /\ EnvVariant.colorHex (EnvVariant.persisted u.2) = EnvVariant.colorHex s
  /\ EnvVariant.colorRgb (EnvVariant.persisted u.2) = EnvVariant.colorRgb s
  /\ EnvVariant.longPress (EnvVariant.persisted u.2) = false.
Proof.
  cbv zeta. intros Hid.
  unfold EnvVariant.onKeyUp, EnvVariant.onKeyDown. run_variant.
  cbn [EnvVariant.start EnvVariant.persisted EnvVariant.trace].
  rewrite Hid. cbn [EnvVariant.with_isDown EnvVariant.isDown negb].
  run_variant.
  cbn [EnvVariant.with_longPress EnvVariant.with_isDown
       EnvVariant.colorRgb EnvVariant.colorHex EnvVariant.longPress negb].
  destruct (EnvVariant.response env
              (EnvVariant.requestFor env (EnvVariant.colorRgb s)));
    run_variant;
    cbn [EnvVariant.with_longPress EnvVariant.with_isDown
         EnvVariant.colorRgb EnvVariant.colorHex EnvVariant.longPress negb];
    repeat split.
Qed.

Lemma variant_long_press_cycle_witness :
  (forall st, EnvVariant.whileWaiting (EnvVariant.quiet ExecRejects) st = st)
  /\ EnvVariant.execs
       (EnvVariant.trace
          (EnvVariant.onKeyUp (EnvVariant.quiet ExecRejects)
             (EnvVariant.onKeyDown (EnvVariant.quiet ExecRejects)
                (EnvVariant.start EnvVariant.idle)).2).2)
     = [].
Proof.
  assert (Hid : forall st,
             EnvVariant.whileWaiting (EnvVariant.quiet ExecRejects) st = st)
    by reflexivity.
  split; [exact Hid |].
  exact (proj1 (proj2 (proj2
    (variant_long_press_cycle (EnvVariant.quiet ExecRejects)
       EnvVariant.idle Hid)))).
Defined.
